(** * Product catalogue service: the REST handlers of [service/routes.py]

    A shallow embedding of the request handlers of the product store
    service, of the parts of the Python runtime they rely on ([str]
    methods, [decimal.Decimal], exceptions, truthiness) and of the
    [Product] model they call, followed by the properties of the
    handlers.

    Python [str] values are Rocq strings, a text being the bytes of its
    UTF-8 encoding; Python [int] is [Z].  The two library functions whose
    result depends on Unicode tables or on limits of the platform,
    [str.upper] and [Decimal(str)], are parameters of the handlers (class
    [Runtime]); their ASCII versions serve where a concrete function is
    needed. *)

From Stdlib Require Import ZArith NArith Bool List Lia.
From Stdlib Require Import Ascii String DecimalString DecimalN DecimalPos DecimalFacts.
From stdpp Require Import base option gmap strings.

Import ListNotations.
Local Open Scope Z_scope.

(** ** Python exceptions and the error monad *)

Module Py.

(** The exception classes that occur in the handlers.  [str(e)] of an
    exception is its message. *)
Inductive exn : Type :=
| AttributeError (msg : string)
| TypeError (msg : string)
| InvalidOperation (msg : string)          (* decimal.InvalidOperation *)
| DataValidationError (msg : string)       (* service.models *)
| HTTPException (code : Z) (description : string).  (* flask.abort *)

Definition exn_str (e : exn) : string :=
  match e with
  | AttributeError m | TypeError m | InvalidOperation m
  | DataValidationError m => m
  | HTTPException _ d => d
  end.

(** A computation either returns or raises. *)
Inductive result (A : Type) : Type :=
| Return (a : A)
| Raise (e : exn).
Arguments Return {A} a.
Arguments Raise {A} e.

Definition bind {A B} (m : result A) (k : A -> result B) : result B :=
  match m with
  | Return a => k a
  | Raise e => Raise e
  end.

#[global] Instance result_bind : MBind result := fun A B k m => bind m k.

(** [try: m  except Exception as e: h e] *)
Definition try_except {A} (m : result A) (h : exn -> result A) : result A :=
  match m with
  | Return a => Return a
  | Raise e => h e
  end.

(** [try: m  except AttributeError: h]: any other exception propagates. *)
Definition try_except_AttributeError {A} (m : result A) (h : result A)
  : result A :=
  match m with
  | Raise (AttributeError _) => h
  | other => other
  end.

(** Monadic [[x for x in l if f x]] where the condition may raise: the
    elements are visited in order and the first exception ends the loop. *)
Fixpoint filterM {A} (f : A -> result bool) (l : list A) : result (list A) :=
  match l with
  | [] => Return []
  | x :: r =>
      bind (f x) (fun keep =>
      bind (filterM f r) (fun r' =>
      Return (if keep then x :: r' else r')))
  end.

(** *** Characters and [str] methods *)

Definition is_digit (c : ascii) : bool :=
  (48 <=? nat_of_ascii c)%nat && (nat_of_ascii c <=? 57)%nat.

Definition is_upper (c : ascii) : bool :=
  (65 <=? nat_of_ascii c)%nat && (nat_of_ascii c <=? 90)%nat.

Definition is_lower (c : ascii) : bool :=
  (97 <=? nat_of_ascii c)%nat && (nat_of_ascii c <=? 122)%nat.

(** [str.isspace] on ASCII: tab, newline, vertical tab, form feed,
    carriage return, the four separators 0x1c..0x1f and the space. *)
Definition is_space (c : ascii) : bool :=
  let n := nat_of_ascii c in
  ((9 <=? n)%nat && (n <=? 13)%nat) || ((28 <=? n)%nat && (n <=? 32)%nat).

Definition ascii_upper (c : ascii) : ascii :=
  if is_lower c then ascii_of_nat (nat_of_ascii c - 32) else c.

Definition ascii_lower (c : ascii) : ascii :=
  if is_upper c then ascii_of_nat (nat_of_ascii c + 32) else c.

Fixpoint map_chars (f : ascii -> ascii) (s : string) : string :=
  match s with
  | EmptyString => EmptyString
  | String c r => String (f c) (map_chars f r)
  end.

(** [s.upper()] and [s.lower()] on ASCII letters; every other byte is
    left alone.  No character outside ASCII has a lower case among the
    letters of "true", so [lower s] equals "true" exactly when
    [s.lower() == "true"]. *)
Definition ascii_str_upper (s : string) : string := map_chars ascii_upper s.
Definition lower (s : string) : string := map_chars ascii_lower s.

(** The text is ASCII. *)
Fixpoint is_ascii (s : string) : bool :=
  match s with
  | EmptyString => true
  | String c r => (nat_of_ascii c <? 128)%nat && is_ascii r
  end.

(** Truthiness of a value that is [None] or a [str], as tested by
    [if v:]: [None] and the empty string are false. *)
Definition truthy (v : option string) : bool :=
  match v with
  | None => false
  | Some s => negb (String.eqb s "")
  end.

(** [l.lstrip()], [l.rstrip()], [l.strip()] on the characters of a string *)
Fixpoint lstrip (l : list ascii) : list ascii :=
  match l with
  | c :: r => if is_space c then lstrip r else l
  | [] => []
  end.

Fixpoint rstrip (l : list ascii) : list ascii :=
  match l with
  | [] => []
  | c :: r =>
      match rstrip r with
      | [] => if is_space c then [] else [c]
      | r' => c :: r'
      end
  end.

Definition strip (l : list ascii) : list ascii := rstrip (lstrip l).

(** [l.replace("_", "")] *)
Definition remove_underscores (l : list ascii) : list ascii :=
  List.filter (fun c => negb (Ascii.eqb c "_")) l.

(** *** Decimal digit strings: [str(n)] and [int(s)] for [n >= 0] *)

Fixpoint chars_of_uint (u : Decimal.uint) : list ascii :=
  match u with
  | Decimal.Nil => []
  | Decimal.D0 u => "0"%char :: chars_of_uint u
  | Decimal.D1 u => "1"%char :: chars_of_uint u
  | Decimal.D2 u => "2"%char :: chars_of_uint u
  | Decimal.D3 u => "3"%char :: chars_of_uint u
  | Decimal.D4 u => "4"%char :: chars_of_uint u
  | Decimal.D5 u => "5"%char :: chars_of_uint u
  | Decimal.D6 u => "6"%char :: chars_of_uint u
  | Decimal.D7 u => "7"%char :: chars_of_uint u
  | Decimal.D8 u => "8"%char :: chars_of_uint u
  | Decimal.D9 u => "9"%char :: chars_of_uint u
  end.

(** The digit a character stands for, pushed in front of [u]; a character
    that is no digit is skipped (the callers pass digits only). *)
Definition push_digit (c : ascii) (u : Decimal.uint) : Decimal.uint :=
  match nat_of_ascii c with
  | 48%nat => Decimal.D0 u
  | 49%nat => Decimal.D1 u
  | 50%nat => Decimal.D2 u
  | 51%nat => Decimal.D3 u
  | 52%nat => Decimal.D4 u
  | 53%nat => Decimal.D5 u
  | 54%nat => Decimal.D6 u
  | 55%nat => Decimal.D7 u
  | 56%nat => Decimal.D8 u
  | 57%nat => Decimal.D9 u
  | _ => u
  end.

Definition uint_of_chars (l : list ascii) : Decimal.uint :=
  fold_right push_digit Decimal.Nil l.

(** [str(n)] *)
Definition digits (n : N) : list ascii := chars_of_uint (N.to_uint n).

(** [int(s)] for a string of digits (leading zeros allowed) *)
Definition int_of_digits (l : list ascii) : N := N.of_uint (uint_of_chars l).

(** [str(z)] for an [int] *)
Definition str_of_int (z : Z) : string :=
  string_of_list_ascii
    ((if z <? 0 then ["-"%char] else []) ++ digits (Z.abs_N z)).

(** ["%+d" % z] *)
Definition format_plus_d (z : Z) : list ascii :=
  (if z <? 0 then "-"%char else "+"%char) :: digits (Z.abs_N z).

End Py.

(** ** [decimal.Decimal]

    The part of Python's [decimal] module the service uses: the
    constructor from [str] and [int], [str()] and [==].  A finite value
    is a sign, a coefficient and an exponent (the value
    [(-1)^sign * coefficient * 10^exponent]); the exponent is unbounded. *)

Module decimal.
Import Py.

Inductive Decimal : Type :=
| Finite (sign : bool) (coefficient : N) (exponent : Z)
| Infinity (sign : bool)
| NaN (sign : bool) (signaling : bool) (payload : N).

Definition is_finite (d : Decimal) : bool :=
  match d with Finite _ _ _ => true | _ => false end.

Definition is_nan (d : Decimal) : bool :=
  match d with NaN _ _ _ => true | _ => false end.

Definition is_snan (d : Decimal) : bool :=
  match d with NaN _ true _ => true | _ => false end.

(** *** The constructor [Decimal(value)] for a string

    The string is stripped, underscores are removed, and the rest must
    be, ignoring case, an optional sign followed by a number (digits with
    an optional point, at least one digit in all, and an optional
    exponent [E], sign, digits), by [Inf] or [Infinity], or by [NaN] or
    [sNaN] with optional diagnostic digits. *)

Fixpoint span_digits (l : list ascii) : list ascii * list ascii :=
  match l with
  | c :: r =>
      if is_digit c
      then let (d, t) := span_digits r in (c :: d, t)
      else ([], l)
  | [] => ([], [])
  end.

Definition parse_sign (l : list ascii) : bool * list ascii :=
  match l with
  | c :: r =>
      if Ascii.eqb c "-" then (true, r)
      else if Ascii.eqb c "+" then (false, r)
      else (false, l)
  | [] => (false, [])
  end.

Definition is_nil {A} (l : list A) : bool :=
  match l with [] => true | _ => false end.

(** The text after the exponent indicator: an optional sign and at least
    one digit, up to the end. *)
Definition parse_exponent (l : list ascii) : option Z :=
  let (neg, r) := parse_sign l in
  let (ds, t) := span_digits r in
  if is_nil ds || negb (is_nil t) then None
  else Some (if neg then - Z.of_N (int_of_digits ds)
             else Z.of_N (int_of_digits ds)).

(** A number: integer digits, an optional point and fraction digits (at
    least one digit in the two parts), an optional exponent, up to the
    end.  Returns the coefficient and the exponent. *)
Definition parse_number (l : list ascii) : option (N * Z) :=
  let (intpart, r1) := span_digits l in
  let (fracpart, r2) :=
    match r1 with
    | c :: r => if Ascii.eqb c "." then span_digits r else ([], r1)
    | [] => ([], r1)
    end in
  if is_nil intpart && is_nil fracpart then None
  else
    let coeff := int_of_digits (intpart ++ fracpart) in
    let shift := Z.of_nat (length fracpart) in
    match r2 with
    | [] => Some (coeff, - shift)
    | c :: r3 =>
        if Ascii.eqb (ascii_lower c) "e"
        then match parse_exponent r3 with
             | Some e => Some (coeff, e - shift)
             | None => None
             end
        else None
    end.

Fixpoint drop_prefix (p l : list ascii) : option (list ascii) :=
  match p, l with
  | [], _ => Some l
  | a :: p', b :: l' => if Ascii.eqb a b then drop_prefix p' l' else None
  | _ :: _, [] => None
  end.

(** The diagnostic of a NaN, digits up to the end: [int(diag or '0')] *)
Definition parse_payload (l : list ascii) : option N :=
  let (ds, t) := span_digits l in
  if is_nil t then Some (int_of_digits ds) else None.

(** Infinities and NaNs, matched on the lower-cased text *)
Definition parse_special (sign : bool) (l : list ascii) : option Decimal :=
  let low := List.map ascii_lower l in
  if String.eqb (string_of_list_ascii low) "inf"
     || String.eqb (string_of_list_ascii low) "infinity"
  then Some (Infinity sign)
  else
    match drop_prefix (list_ascii_of_string "nan") low with
    | Some r => option_map (NaN sign false) (parse_payload r)
    | None =>
        match drop_prefix (list_ascii_of_string "snan") low with
        | Some r => option_map (NaN sign true) (parse_payload r)
        | None => None
        end
    end.

Definition parse (l : list ascii) : option Decimal :=
  let (sign, r) := parse_sign (remove_underscores (strip l)) in
  match parse_number r with
  | Some (c, e) => Some (Finite sign c e)
  | None => parse_special sign r
  end.

(** The exception of a string that is no numeric string: its [str()] is
    the list of signals, as the [decimal] module prints it. *)
Definition ConversionSyntax : exn :=
  InvalidOperation "[<class 'decimal.ConversionSyntax'>]".

(** [Decimal(s)] for an ASCII numeric string, without any limit on the
    exponent or on the number of digits *)
Definition Decimal_of_ascii (s : string) : result Decimal :=
  match parse (list_ascii_of_string s) with
  | Some d => Return d
  | None => Raise ConversionSyntax
  end.

(** [Decimal(z)] for [z : int] *)
Definition Decimal_of_int (z : Z) : Decimal :=
  Finite (z <? 0) (Z.abs_N z) 0.

(** *** [str(d)]: the scientific string of the value *)

Definition sign_chars (sign : bool) : list ascii :=
  if sign then ["-"%char] else [].

Definition zeros (n : Z) : list ascii := repeat "0"%char (Z.to_nat n).

(** The diagnostic digits printed after [NaN]: none for a zero payload *)
Definition payload_chars (n : N) : list ascii :=
  if (n =? 0)%N then [] else digits n.

Definition to_chars (d : Decimal) : list ascii :=
  match d with
  | Infinity s => sign_chars s ++ list_ascii_of_string "Infinity"
  | NaN s sig n =>
      sign_chars s
      ++ list_ascii_of_string (if sig then "sNaN" else "NaN")
      ++ payload_chars n
  | Finite s c e =>
      let int := digits c in
      let len := Z.of_nat (length int) in
      let leftdigits := e + len in
      let dotplace :=
        if (e <=? 0) && (-6 <? leftdigits) then leftdigits else 1 in
      let intpart :=
        if dotplace <=? 0 then ["0"%char]
        else if len <=? dotplace then int ++ zeros (dotplace - len)
        else firstn (Z.to_nat dotplace) int in
      let fracpart :=
        if dotplace <=? 0 then "."%char :: zeros (- dotplace) ++ int
        else if len <=? dotplace then []
        else "."%char :: skipn (Z.to_nat dotplace) int in
      let exp :=
        if leftdigits =? dotplace then []
        else "E"%char :: format_plus_d (leftdigits - dotplace) in
      sign_chars s ++ intpart ++ fracpart ++ exp
  end.

Definition Decimal_str (d : Decimal) : string :=
  string_of_list_ascii (to_chars d).

(** *** [a == b]

    A signaling NaN on either side raises [InvalidOperation]; a quiet NaN
    equals nothing; infinities are equal when their signs are; finite
    values are compared by value, so [10.00 == 10.0] and [0 == -0]. *)

Definition signed (sign : bool) (c : N) : Z :=
  if sign then - Z.of_N c else Z.of_N c.

Definition value_eqb (a b : Decimal) : bool :=
  match a, b with
  | Finite s1 c1 e1, Finite s2 c2 e2 =>
      let m := Z.min e1 e2 in
      signed s1 c1 * 10 ^ (e1 - m) =? signed s2 c2 * 10 ^ (e2 - m)
  | Infinity s1, Infinity s2 => Bool.eqb s1 s2
  | _, _ => false
  end.

Definition InvalidOperation_signal : exn :=
  InvalidOperation "[<class 'decimal.InvalidOperation'>]".

Definition Decimal_eq (a b : Decimal) : result bool :=
  if is_snan a || is_snan b then Raise InvalidOperation_signal
  else if is_nan a || is_nan b then Return false
  else Return (value_eqb a b).

End decimal.

(** ** The library functions the handlers take as they are

    [str.upper] follows the Unicode case tables (the long s and the
    dotless i have S and I as their upper case), and [Decimal(str)]
    accepts the decimal digits and the white space of every script and
    refuses, on some platforms, exponents beyond a limit.  The handlers
    are therefore stated for any two such functions; of [str.upper] only
    what it does on ASCII text is used. *)

Module runtime.
Import Py decimal.

(** [str.upper] and [Decimal(str)] are library functions of the
    interpreter: [list_products] calls them, and the properties of the
    handler hold for any such pair.  The one law used is that [str.upper]
    is the ASCII mapping on ASCII text. *)
Class Runtime : Type := {
  upper : string -> string;
  Decimal_of_str : string -> result Decimal;
  upper_ascii : forall s, is_ascii s = true -> upper s = ascii_str_upper s
}.

(** The ASCII functions, for concrete requests *)
Definition reference : Runtime :=
  {| upper := ascii_str_upper;
     Decimal_of_str := Decimal_of_ascii;
     upper_ascii := fun s _ => eq_refl |}.

End runtime.

(** ** The [Product] model

    [service/models.py] is not among the sources; the handlers call it and
    the tests exercise it.  Its declarations and operations are modelled
    from the specification (sections 3, 4.1, 4.2 and 6) and from the
    messages the tests expect. *)

Module models.
Import Py decimal.

(** Modelled from the spec: the [Category] enumeration of
    [service/models.py], "a closed, named set of product categories
    (CLOTHS, FOOD, TOOLS, AUTOMOTIVE, UNKNOWN)". *)
Inductive Category : Type := UNKNOWN | CLOTHS | FOOD | TOOLS | AUTOMOTIVE.

Definition Category_members : list Category :=
  [UNKNOWN; CLOTHS; FOOD; TOOLS; AUTOMOTIVE].

(** [c.name] *)
Definition Category_name (c : Category) : string :=
  match c with
  | UNKNOWN => "UNKNOWN"
  | CLOTHS => "CLOTHS"
  | FOOD => "FOOD"
  | TOOLS => "TOOLS"
  | AUTOMOTIVE => "AUTOMOTIVE"
  end.

Definition Category_eqb (a b : Category) : bool :=
  String.eqb (Category_name a) (Category_name b).

(** [getattr(Category, attr)] for an upper-cased [attr]: the member of
    that name, or [AttributeError].  (The other attributes of an
    enumeration class all contain lower-case letters, so an upper-cased
    name can only reach a member.) *)
Definition Category_getattr (attr : string) : result Category :=
  match List.find (fun c => String.eqb (Category_name c) attr)
          Category_members with
  | Some c => Return c
  | None => Raise (AttributeError attr)
  end.

(** JSON values as Python sees them.  Non-integer numbers (binary
    floats) and nested containers inside a product mapping are left out. *)
Inductive pyval : Type :=
| VNone
| VBool (b : bool)
| VInt (z : Z)
| VStr (s : string).

Inductive pyobj : Type :=
| Scalar (v : pyval)
| Dict (d : gmap string pyval)
| DictList (l : list (gmap string pyval)).

Record Product : Type := mkProduct {
  id : option Z;
  name : string;
  description : string;
  price : Decimal;
  available : bool;
  category : Category
}.

(** Modelled from the spec: [Product()], a record not yet populated nor
    persisted; [deserialize] overwrites every field but [id]. *)
Definition Product_new : Product :=
  {| id := None; name := ""; description := ""; price := Finite false 0 0;
     available := false; category := UNKNOWN |}.

(** Modelled from the spec: [Product.serialize] (section 6): the five
    fields and the id, the category as its canonical name and the price
    as a decimal-formatted string. *)
Definition serialize (self : Product) : gmap string pyval :=
  list_to_map
    [ ("id"%string, match id self with Some i => VInt i | None => VNone end);
      ("name"%string, VStr (name self));
      ("description"%string, VStr (description self));
      ("price"%string, VStr (Decimal_str (price self)));
      ("available"%string, VBool (available self));
      ("category"%string, VStr (Category_name (category self))) ].

(** [data[key]] inside [deserialize]: a missing key is reported as a
    validation error that names it (the tests expect "missing name",
    "missing description", ...). *)
Definition required (data : gmap string pyval) (key : string) : result pyval :=
  match data !! key with
  | Some v => Return v
  | None => Raise (DataValidationError ("Invalid product: missing " +:+ key))
  end.

Definition bad_data : exn :=
  DataValidationError
    "Invalid product: body of request contained bad or no data".

Definition text_field (v : pyval) : result string :=
  match v with
  | VStr s => Return s
  | _ => Raise bad_data
  end.

(** A price given as a string or as a number becomes an exact decimal;
    input that is neither, or no numeric string, is malformed input. *)
Definition price_field (v : pyval) : result Decimal :=
  match v with
  | VStr s =>
      try_except (Decimal_of_ascii s)
        (fun e => Raise (DataValidationError
                           ("Invalid product: bad price " +:+ exn_str e)))
  | VInt z => Return (Decimal_of_int z)
  | _ => Raise bad_data
  end.

(** Only a genuine boolean is accepted (the tests expect "Invalid type
    for boolean"). *)
Definition available_field (v : pyval) : result bool :=
  match v with
  | VBool b => Return b
  | _ => Raise (DataValidationError "Invalid type for boolean [available]")
  end.

(** The category is given by name, case-insensitively (section 6); the
    tests expect "Invalid attribute: 'NAME'" for an unknown one. *)
Definition category_field (v : pyval) : result Category :=
  match v with
  | VStr s =>
      try_except_AttributeError (Category_getattr (ascii_str_upper s))
        (Raise (DataValidationError ("Invalid attribute: '" +:+ s +:+ "'")))
  | _ => Raise bad_data
  end.

(** Modelled from the spec: [Product.deserialize] (section 4.1).  The
    checks come in the order of the specification: the input is a
    mapping, the five fields are present (in the order name, description,
    price, available, category of the tests), [available] is a boolean,
    the category is a member name; then the fields are converted.
    Nothing is persisted and [id] is kept. *)
Definition deserialize (self : Product) (data : pyobj) : result Product :=
  match data with
  | Dict d =>
      v_name ← required d "name";
      v_description ← required d "description";
      v_price ← required d "price";
      v_available ← required d "available";
      v_category ← required d "category";
      new_available ← available_field v_available;
      new_category ← category_field v_category;
      new_name ← text_field v_name;
      new_description ← text_field v_description;
      new_price ← price_field v_price;
      Return {| id := id self; name := new_name;
                description := new_description; price := new_price;
                available := new_available; category := new_category |}
  | _ => Raise bad_data
  end.

(** *** The store

    Modelled from the spec (section 4.2): the rows in insertion order and
    the next identity the store hands out. *)
Record Store : Type := mkStore {
  rows : list Product;
  next_id : Z
}.

Definition has_id (i : Z) (p : Product) : bool :=
  match id p with
  | Some j => i =? j
  | None => false
  end.

Definition set_id (i : option Z) (p : Product) : Product :=
  {| id := i; name := name p; description := description p;
     price := price p; available := available p; category := category p |}.

(** [Product.all()] *)
Definition all (st : Store) : list Product := rows st.

(** [Product.find(product_id)]: the record or [None], never an error *)
Definition find (st : Store) (product_id : Z) : option Product :=
  List.find (has_id product_id) (rows st).

(** [Product.find_by_name(name).all()] *)
Definition find_by_name (st : Store) (n : string) : list Product :=
  List.filter (fun p => String.eqb (name p) n) (rows st).

(** [self.create()]: the store assigns the identity *)
Definition create (self : Product) (st : Store) : Product * Store :=
  let p := set_id (Some (next_id st)) self in
  (p, {| rows := rows st ++ [p]; next_id := next_id st + 1 |}).

Definition replace_row (i : Z) (self p : Product) : Product :=
  if has_id i p then self else p.

(** [self.update()]: a validation error without an identity; otherwise
    the row of that identity takes the current field values *)
Definition update (self : Product) (st : Store) : result unit * Store :=
  match id self with
  | None =>
      (Raise (DataValidationError "Update called with empty ID field"), st)
  | Some i =>
      (Return tt,
       {| rows := List.map (replace_row i self) (rows st);
          next_id := next_id st |})
  end.

(** [self.delete()]: the row of that identity is removed *)
Definition delete (self : Product) (st : Store) : Store :=
  {| rows := List.filter
               (fun p => negb (match id self with
                               | Some i => has_id i p
                               | None => false
                               end)) (rows st);
     next_id := next_id st |}.

End models.

(** ** The handlers of [service/routes.py] *)

Module routes.
Import Py decimal runtime models.

(** What a handler reads of the request: the headers, the query string
    ([request.args.get] gives the value of a parameter, or [None]) and
    the outcome of [request.get_json()]. *)
Record Request : Type := mkRequest {
  headers : gmap string string;
  args : gmap string string;
  get_json : result pyobj
}.

Inductive Body : Type :=
| Text (s : string)
| Json (o : pyobj)
| Error (message : string).

Record Response : Type := mkResponse {
  status : Z;
  body : Body;
  location : option string
}.

Definition HTTP_200_OK : Z := 200.
Definition HTTP_201_CREATED : Z := 201.
Definition HTTP_204_NO_CONTENT : Z := 204.
Definition HTTP_400_BAD_REQUEST : Z := 400.
Definition HTTP_404_NOT_FOUND : Z := 404.
Definition HTTP_415_UNSUPPORTED_MEDIA_TYPE : Z := 415.

(** [abort(code, description)] *)
Definition abort {A} (code : Z) (description : string) : result A :=
  Raise (HTTPException code description).

(** [jsonify(x), code] *)
Definition jsonify (o : pyobj) (code : Z) : Response :=
  {| status := code; body := Json o; location := None |}.

(** [if v: then_ v] with the working value left as it is otherwise *)
Definition if_given {A} (v : option string) (then_ : string -> result A)
  (otherwise : A) : result A :=
  match v with
  | Some s => if truthy v then then_ s else Return otherwise
  | None => Return otherwise
  end.

Definition check_content_type (request : Request) (content_type : string)
  : result unit :=
  match headers request !! "Content-Type" with
  | None =>
      abort HTTP_415_UNSUPPORTED_MEDIA_TYPE
        ("Content-Type must be " +:+ content_type)
  | Some v =>
      if String.eqb v content_type then Return tt
      else abort HTTP_415_UNSUPPORTED_MEDIA_TYPE
             ("Content-Type must be " +:+ content_type)
  end.

(** The location of a product, [url_for("get_products", ...)], without
    the scheme and the host. *)
Definition url_for_get_products (product_id : Z) : string :=
  "/products/" +:+ str_of_int product_id.

(** POST /products *)
Definition create_products (st : Store) (request : Request)
  : result Response * Store :=
  match check_content_type request "application/json" with
  | Raise e => (Raise e, st)
  | Return _ =>
      match data ← get_json request; deserialize Product_new data with
      | Raise e => (Raise e, st)
      | Return product =>
          let (product, st') := create product st in
          let message := serialize product in
          let location_url :=
            url_for_get_products (default 0 (id product)) in
          (Return {| status := HTTP_201_CREATED;
                     body := Json (Dict message);
                     location := Some location_url |}, st')
      end
  end.

Section listing.
Context {rt : Runtime}.

(** GET /products *)
Definition list_products (st : Store) (request : Request) : result Response :=
  let products := all st in
  let name := args request !! "name" in
  let category := args request !! "category" in
  let available := args request !! "available" in
  let price := args request !! "price" in
  products ← if_given name
    (fun name => Return (find_by_name st name)) products;
  products ← if_given category
    (fun category =>
       try_except_AttributeError
         (category_enum ← Category_getattr (upper category);
          Return (List.filter
                    (fun p => Category_eqb (models.category p) category_enum)
                    products))
         (abort HTTP_400_BAD_REQUEST ("Invalid category: " +:+ category)))
    products;
  products ← if_given available
    (fun available =>
       let available_bool := String.eqb (lower available) "true" in
       Return (List.filter
                 (fun p => Bool.eqb (models.available p) available_bool)
                 products))
    products;
  products ← if_given price
    (fun price =>
       try_except
         (price_decimal ← Decimal_of_str price;
          filterM (fun p => Decimal_eq (models.price p) price_decimal)
            products)
         (fun e =>
            abort HTTP_400_BAD_REQUEST
              ("Invalid price format: " +:+ price +:+ " - " +:+ exn_str e)))
    products;
  let results := List.map serialize products in
  Return (jsonify (DictList results) HTTP_200_OK).

End listing.

Definition not_found {A} (product_id : Z) : result A :=
  abort HTTP_404_NOT_FOUND
    ("Product with id '" +:+ str_of_int product_id +:+ "' was not found.").

(** GET /products/<product_id> *)
Definition get_products (st : Store) (product_id : Z) : result Response :=
  match find st product_id with
  | None => not_found product_id
  | Some product => Return (jsonify (Dict (serialize product)) HTTP_200_OK)
  end.

(** PUT /products/<product_id> *)
Definition update_products (st : Store) (request : Request) (product_id : Z)
  : result Response * Store :=
  match check_content_type request "application/json" with
  | Raise e => (Raise e, st)
  | Return _ =>
      match find st product_id with
      | None => (not_found product_id, st)
      | Some product =>
          match data ← get_json request; deserialize product data with
          | Raise e => (Raise e, st)
          | Return product =>
              let product := set_id (Some product_id) product in
              match update product st with
              | (Raise e, st') => (Raise e, st')
              | (Return _, st') =>
                  (Return (jsonify (Dict (serialize product)) HTTP_200_OK),
                   st')
              end
          end
      end
  end.

(** DELETE /products/<product_id> *)
Definition delete_products (st : Store) (product_id : Z)
  : result Response * Store :=
  let st' :=
    match find st product_id with
    | Some product => delete product st
    | None => st
    end in
  (Return {| status := HTTP_204_NO_CONTENT; body := Text "";
             location := None |}, st').

(** Modelled from the spec: the error handlers of
    [service/common/error_handlers.py] (section 7).  A validation error
    is answered with 400 and its message, an [abort] with its code and
    description; anything else is an internal error. *)
Definition handle_exception (e : exn) : Response :=
  match e with
  | HTTPException code description =>
      {| status := code; body := Error description; location := None |}
  | DataValidationError message =>
      {| status := HTTP_400_BAD_REQUEST; body := Error message;
         location := None |}
  | other => {| status := 500; body := Error (exn_str other);
                location := None |}
  end.

(** What the client receives for the outcome of a handler *)
Definition respond (r : result Response) : Response :=
  match r with
  | Return resp => resp
  | Raise e => handle_exception e
  end.

End routes.

Import Py decimal runtime models routes.

(** * Notions used in the statements *)

Section notions.
Context {rt : Runtime}.

(** ** Texts *)





(** Two strings that differ at most in the case of their letters *)
Fixpoint same_ignoring_case (s t : string) : bool :=
  match s, t with
  | EmptyString, EmptyString => true
  | String a s', String b t' =>
      Ascii.eqb (ascii_lower a) (ascii_lower b) && same_ignoring_case s' t'
  | _, _ => false
  end.

(** ** Requests and stores *)

(** The value of a query parameter when the handler takes it into
    account: a parameter that is missing or empty is passed over. *)
Definition given (v : option string) : option string :=
  if truthy v then v else None.

(** The request without one query parameter *)
Definition without (key : string) (request : Request) : Request :=
  {| headers := headers request;
     args := base.delete key (args request);
     get_json := get_json request |}.

(** The store that holds only the rows satisfying [keep] *)
Definition restrict (keep : Product -> bool) (st : Store) : Store :=
  {| rows := List.filter keep (rows st); next_id := next_id st |}.

Definition in_category (e : Category) (p : Product) : bool :=
  Category_eqb (category p) e.

Definition is_available (b : bool) (p : Product) : bool :=
  Bool.eqb (available p) b.

Definition has_price (d : Decimal) (p : Product) : bool :=
  value_eqb (price p) d.

(** The stages of the listing: the base set and the three narrowing
    steps, each a function of the working set. *)
Definition base_set (st : Store) (request : Request) : list Product :=
  match given (args request !! "name") with
  | Some n => find_by_name st n
  | None => all st
  end.

Definition narrow_category (request : Request) (l : list Product)
  : list Product :=
  match given (args request !! "category") with
  | Some c =>
      match Category_getattr (upper c) with
      | Return e => List.filter (in_category e) l
      | Raise _ => l
      end
  | None => l
  end.

Definition narrow_available (request : Request) (l : list Product)
  : list Product :=
  match given (args request !! "available") with
  | Some a => List.filter (is_available (String.eqb (lower a) "true")) l
  | None => l
  end.

Definition narrow_price (request : Request) (l : list Product)
  : list Product :=
  match given (args request !! "price") with
  | Some s =>
      match Decimal_of_str s with
      | Return d =>
          List.filter
            (fun p => match Decimal_eq (price p) d with
                      | Return b => b
                      | Raise _ => false
                      end) l
      | Raise _ => l
      end
  | None => l
  end.

(** The category parameter, if taken into account, names a member. *)
Definition category_accepted (request : Request) : bool :=
  match given (args request !! "category") with
  | Some c =>
      match Category_getattr (upper c) with
      | Return _ => true
      | Raise _ => false
      end
  | None => true
  end.

(** The five fields a product mapping must carry *)
Definition required_fields : list string :=
  ["name"; "description"; "price"; "available"; "category"]%string.

Definition is_boolean (v : pyval) : bool :=
  match v with VBool _ => true | _ => false end.

Definition error_response (code : Z) (message : string) : Response :=
  {| status := code; body := Error message; location := None |}.

(** The answer to a listing: the serialized records, 200 *)
Definition listing (l : list Product) : Response :=
  jsonify (DictList (List.map serialize l)) HTTP_200_OK.

(** The answer to a deletion *)
Definition no_content : Response :=
  {| status := HTTP_204_NO_CONTENT; body := Text ""; location := None |}.

Definition price_message (s : string) (e : exn) : string :=
  "Invalid price format: " +:+ s +:+ " - " +:+ exn_str e.

(** The last stage of the listing, on the working set the earlier stages
    leave *)
Definition price_stage (request : Request) (working : list Product)
  : result Response :=
  match given (args request !! "price") with
  | None => Return (listing working)
  | Some s =>
      match Decimal_of_str s with
      | Raise e => abort HTTP_400_BAD_REQUEST (price_message s e)
      | Return d =>
          match filterM (fun p => Decimal_eq (price p) d) working with
          | Return l => Return (listing l)
          | Raise e => abort HTTP_400_BAD_REQUEST (price_message s e)
          end
      end
  end.

(** ** Sample data, after the fixtures of the tests *)

Definition sample (n : string) (c : Category) : Product :=
  {| id := None; name := n; description := "sample";
     price := Finite false 1000 (-2); available := true; category := c |}.

Definition priced (n : string) (d : Decimal) : Product :=
  {| id := None; name := n; description := "sample"; price := d;
     available := true; category := UNKNOWN |}.


Definition empty_store : Store := {| rows := []; next_id := 1 |}.

(** The store after creating the given products in turn *)
Definition store_of (l : list Product) : Store :=
  fold_left (fun st p => snd (create p st)) l empty_store.

Definition shirts_and_pants : Store :=
  store_of [sample "Shirt" CLOTHS; sample "Pants" CLOTHS; sample "Shirt" FOOD].

Definition price_list : Store :=
  store_of [priced "A" (Finite false 1000 (-2));
            priced "B" (Finite false 2550 (-2));
            priced "C" (Finite false 1000 (-2))].

(** A GET request with the given query string; it has no JSON body. *)
Definition query (params : list (string * string)) : Request :=
  {| headers := ∅; args := list_to_map params;
     get_json :=
       abort HTTP_415_UNSUPPORTED_MEDIA_TYPE "Unsupported Media Type" |}.

Definition shirt_in_cloths : Request :=
  query [("name", "Shirt"); ("category", "CLOTHS")]%string.

Definition empty_name : Request := query [("name", "")]%string.
Definition empty_available : Request := query [("available", "")]%string.


(** The mapping of a product whose [available] is the string "true" *)
Definition available_as_text : gmap string pyval :=
  <[ "available"%string := VStr "true" ]> (serialize (sample "Shirt" CLOTHS)).




(** A request whose body is the given JSON value, sent as JSON *)
Definition json_request (data : pyobj) : Request :=
  {| headers := {[ "Content-Type"%string := "application/json"%string ]};
     args := ∅; get_json := Return data |}.

(** ** Notions for the further properties *)

(** A store as the handlers keep it: every row has an identity, the
    identities are distinct, not negative and below the next one. *)
Definition store_ok (st : Store) : Prop :=
  0 <= next_id st
  /\ Forall (fun p => exists i, id p = Some i /\ 0 <= i < next_id st)
       (rows st)
  /\ NoDup (List.map id (rows st)).

(** The request with one query parameter set *)
Definition with_arg (key value : string) (request : Request) : Request :=
  {| headers := headers request;
     args := <[ key := value ]> (args request);
     get_json := get_json request |}.

(** The record passes the filter the request gives on one field; a
    parameter that is passed over lets every record through. *)
Definition name_ok (request : Request) (p : Product) : bool :=
  match given (args request !! "name") with
  | Some n => String.eqb (name p) n
  | None => true
  end.

Definition category_ok (request : Request) (p : Product) : bool :=
  match given (args request !! "category") with
  | Some c =>
      match Category_getattr (upper c) with
      | Return e => in_category e p
      | Raise _ => true
      end
  | None => true
  end.

Definition available_ok (request : Request) (p : Product) : bool :=
  match given (args request !! "available") with
  | Some a => is_available (String.eqb (lower a) "true") p
  | None => true
  end.

Definition price_ok (request : Request) (p : Product) : bool :=
  match given (args request !! "price") with
  | Some s =>
      match Decimal_of_str s with
      | Return d =>
          match Decimal_eq (price p) d with
          | Return b => b
          | Raise _ => false
          end
      | Raise _ => true
      end
  | None => true
  end.

(** The record passes every filter the request gives. *)
Definition selected (request : Request) (p : Product) : bool :=
  name_ok request p && category_ok request p
  && available_ok request p && price_ok request p.

(** *** The clean-up loop of [features/steps/load_steps.py]

    [step_impl] lists the products and deletes them one by one through
    the REST interface, expecting 200 for the listing and 204 for each
    deletion.  [None] stands for a failed expectation. *)

(** [product['id']] for each product of [context.resp.json()] *)
Definition listed_ids (resp : Response) : list pyval :=
  match body resp with
  | Json (DictList l) => List.map (fun d => default VNone (d !! "id")) l
  | _ => []
  end.

(** [requests.delete(f"{rest_endpoint}/{product['id']}")]: the route
    takes a path segment of digits; anything else is answered 404 by the
    router. *)
Definition request_delete (st : Store) (v : pyval) : Response * Store :=
  match v with
  | VInt i =>
      if 0 <=? i
      then (respond (fst (delete_products st i)),
            snd (delete_products st i))
      else (error_response HTTP_404_NOT_FOUND "Not Found", st)
  | _ => (error_response HTTP_404_NOT_FOUND "Not Found", st)
  end.

(** The identity of the record is among the listed ones. *)
Definition listed (ids : list pyval) (p : Product) : bool :=
  existsb (fun v => match v with VInt i => has_id i p | _ => false end) ids.

Fixpoint delete_listed (st : Store) (ids : list pyval) : option Store :=
  match ids with
  | [] => Some st
  | v :: r =>
      let (resp, st') := request_delete st v in
      if status resp =? HTTP_204_NO_CONTENT then delete_listed st' r
      else None
  end.

Definition delete_all_products (st : Store) : option Store :=
  let resp := respond (list_products st (query [])) in
  if status resp =? HTTP_200_OK then delete_listed st (listed_ids resp)
  else None.

(** A request with the given Content-Type header and a body that is no
    JSON *)
Definition with_header (content_type : string) : Request :=
  {| headers := {[ "Content-Type"%string := content_type ]};
     args := ∅;
     get_json := abort HTTP_400_BAD_REQUEST "Failed to decode JSON object" |}.

End notions.

(** * Properties *)

Section properties.
Context {rt : Runtime}.

(** ** Digit strings *)










(** ** Parsing what [str()] prints *)































(** ** The listing, stage by stage *)

Lemma if_given_given {A} (v : option string) (f : string -> result A) (o : A) :
  if_given v f o = match given v with Some s => f s | None => Return o end.
Proof.
  unfold if_given, given. destruct v as [s|]; [|reflexivity].
  destruct (truthy (Some s)); reflexivity.
Qed.

Lemma given_Some (s : string) : s <> ""%string -> given (Some s) = Some s.
Proof.
  intros H. unfold given, truthy. destruct (String.eqb_spec s ""); [congruence|reflexivity].
Qed.

Lemma given_empty : given (Some ""%string) = None.
Proof. reflexivity. Qed.

Lemma Category_getattr_Raise (a : string) (e : exn) :
  Category_getattr a = Raise e -> e = AttributeError a.
Proof.
  unfold Category_getattr. destruct (List.find _ _); congruence.
Qed.

Lemma filterM_Return {A} (f : A -> result bool) (l r : list A) :
  filterM f l = Return r ->
  r = List.filter (fun x => match f x with Return b => b | Raise _ => false end) l.
Proof.
  revert r. induction l as [|x l IH]; simpl; intros r H; [congruence|].
  destruct (f x) as [b|e]; simpl in H; [|discriminate].
  destruct (filterM f l) as [r'|e]; simpl in H; [|discriminate].
  rewrite <- (IH r' eq_refl). destruct b; congruence.
Qed.

Lemma filterM_total {A} (f : A -> result bool) (g : A -> bool) (l : list A) :
  Forall (fun x => f x = Return (g x)) l ->
  filterM f l = Return (List.filter g l).
Proof.
  induction 1 as [|x l Hx _ IH]; simpl; [reflexivity|].
  rewrite Hx, IH. simpl. destruct (g x); reflexivity.
Qed.

Lemma list_products_stages (st : Store) (request : Request) :
  list_products st request =
  if category_accepted request
  then price_stage request
         (narrow_available request
            (narrow_category request (base_set st request)))
  else abort HTTP_400_BAD_REQUEST
         ("Invalid category: "
          +:+ default ""%string (given (args request !! "category"))).
Proof.
  unfold list_products, category_accepted, price_stage, narrow_available,
    narrow_category, listing, base_set, mbind, result_bind.
  change is_available with (fun b p => Bool.eqb (available p) b).
  change in_category with (fun e p => Category_eqb (category p) e).
  cbv beta.
  rewrite if_given_given.
  destruct (given (args request !! "name")) as [n|]; cbn [bind].
  all: rewrite if_given_given.
  all: destruct (given (args request !! "category")) as [c|]; cbn [bind default].
  all: try (destruct (Category_getattr (upper c)) as [e|e] eqn:Hc;
            [|rewrite (Category_getattr_Raise _ _ Hc)];
            cbn [bind try_except_AttributeError]; [|reflexivity]).
  all: rewrite if_given_given.
  all: destruct (given (args request !! "available")) as [a|]; cbn [bind].
  all: rewrite if_given_given.
  all: destruct (given (args request !! "price")) as [s|]; cbn [bind];
    [|reflexivity].
  all: destruct (Decimal_of_str s) as [d|e']; cbn [bind try_except];
    [|reflexivity].
  all: match goal with |- context [filterM ?f ?l] =>
         destruct (filterM f l) end; reflexivity.
Qed.

Lemma narrow_price_stage (request : Request) (working : list Product)
  (resp : Response) :
  price_stage request working = Return resp ->
  resp = listing (narrow_price request working).
Proof.
  unfold price_stage, narrow_price.
  destruct (given (args request !! "price")) as [s|]; [|congruence].
  destruct (Decimal_of_str s) as [d|e]; [|discriminate].
  destruct (filterM _ working) as [l|e] eqn:Hf; [|discriminate].
  intros [= <-]. now rewrite (filterM_Return _ _ _ Hf).
Qed.

(** C1, as amended.  A listing that succeeds returns the records left
    after narrowing the base set by category, then by availability, then
    by price, each step working on what the step before left.  The base
    set is the result of the name lookup when a non-empty name is given,
    and every record otherwise.  For a store holding (Shirt, CLOTHS),
    (Pants, CLOTHS) and (Shirt, FOOD), the request name=Shirt with
    category=CLOTHS returns exactly the first record. *)
Theorem list_products_sequential :
  (forall st request resp,
      list_products st request = Return resp ->
      resp = listing
               (narrow_price request
                  (narrow_available request
                     (narrow_category request (base_set st request)))))
  /\ (forall st p1 p2 p3,
         rows st = [p1; p2; p3] ->
         name p1 = "Shirt"%string -> category p1 = CLOTHS ->
         name p2 = "Pants"%string -> category p2 = CLOTHS ->
         name p3 = "Shirt"%string -> category p3 = FOOD ->
         list_products st shirt_in_cloths = Return (listing [p1])).
Proof.
  split.
  - intros st request resp H. rewrite list_products_stages in H.
    destruct (category_accepted request); [|discriminate].
    now apply narrow_price_stage.
  - intros st p1 p2 p3 Hrows N1 C1 N2 C2 N3 C3.
    rewrite list_products_stages.
    unfold category_accepted, price_stage, narrow_available, narrow_category,
      base_set, find_by_name.
    rewrite Hrows.
    change (given (args shirt_in_cloths !! "name"%string))
      with (Some "Shirt"%string).
    change (given (args shirt_in_cloths !! "category"%string))
      with (Some "CLOTHS"%string).
    change (given (args shirt_in_cloths !! "available"%string))
      with (@None string).
    change (given (args shirt_in_cloths !! "price"%string))
      with (@None string).
    cbv iota beta. rewrite (upper_ascii "CLOTHS" eq_refl).
    destruct p1, p2, p3. simpl in N1, C1, N2, C2, N3, C3. subst.
    reflexivity.
Qed.

(** ** Narrowing the store instead of the working set *)

Lemma filter_swap {A} (f g : A -> bool) (l : list A) :
  List.filter f (List.filter g l) = List.filter g (List.filter f l).
Proof.
  induction l as [|x l IH]; simpl; [reflexivity|].
  destruct (f x) eqn:Hf, (g x) eqn:Hg; simpl; rewrite ?Hf, ?Hg, IH; reflexivity.
Qed.

Lemma args_without_ne (k k' : string) (request : Request) :
  k <> k' -> args (without k request) !! k' = args request !! k'.
Proof. intros H. unfold without. simpl. now apply lookup_delete_ne. Qed.

Lemma args_without_eq (k : string) (request : Request) :
  args (without k request) !! k = None.
Proof. unfold without. simpl. apply lookup_delete_eq. Qed.

Lemma base_set_restrict (keep : Product -> bool) st request :
  base_set (restrict keep st) request = List.filter keep (base_set st request).
Proof.
  unfold base_set, find_by_name, all, restrict. simpl.
  destruct (given (args request !! "name")); [apply filter_swap | reflexivity].
Qed.

Lemma narrow_category_filter (keep : Product -> bool) request l :
  narrow_category request (List.filter keep l)
  = List.filter keep (narrow_category request l).
Proof.
  unfold narrow_category.
  destruct (given (args request !! "category")) as [c|]; [|reflexivity].
  destruct (Category_getattr (upper c)); [apply filter_swap | reflexivity].
Qed.

Lemma narrow_available_filter (keep : Product -> bool) request l :
  narrow_available request (List.filter keep l)
  = List.filter keep (narrow_available request l).
Proof.
  unfold narrow_available.
  destruct (given (args request !! "available")); [apply filter_swap | reflexivity].
Qed.

(** A parameter the handler passes over can as well be left out. *)
Lemma list_products_without (k : string) st request :
  given (args request !! k) = None ->
  list_products st (without k request) = list_products st request.
Proof.
  intros Hk. rewrite !list_products_stages.
  unfold category_accepted, price_stage, narrow_available, narrow_category,
    base_set.
  assert (Hg : forall k', given (args (without k request) !! k')
                          = given (args request !! k')).
  { intros k'. destruct (decide (k = k')) as [<-|Hne].
    - now rewrite args_without_eq, Hk.
    - now rewrite args_without_ne. }
  now rewrite !Hg.
Qed.


Lemma list_products_restrict_available st request a :
  given (args request !! "available") = Some a ->
  list_products st request
  = list_products (restrict (is_available (String.eqb (lower a) "true")) st)
      (without "available" request).
Proof.
  intros Ha. rewrite !list_products_stages.
  rewrite base_set_restrict, narrow_category_filter.
  unfold category_accepted, price_stage, narrow_available, narrow_category,
    base_set.
  rewrite args_without_eq, !args_without_ne by discriminate.
  rewrite Ha. reflexivity.
Qed.

(** ** Categories by name *)

Lemma Category_getattr_name (e : Category) :
  Category_getattr (Category_name e) = Return e.
Proof. destruct e; reflexivity. Qed.



(** ** Comparing prices *)

Lemma Decimal_eq_Raise (a b : Decimal) (e : exn) :
  Decimal_eq a b = Raise e -> e = InvalidOperation_signal.
Proof.
  unfold Decimal_eq. destruct (is_snan a || is_snan b).
  - now intros [= <-].
  - destruct (is_nan a || is_nan b); discriminate.
Qed.

Lemma Decimal_eq_quiet (a b : Decimal) :
  is_snan a = false -> is_snan b = false ->
  Decimal_eq a b = Return (value_eqb a b).
Proof.
  unfold Decimal_eq. intros -> ->. simpl.
  destruct a, b; reflexivity.
Qed.

Lemma filterM_Raise_eq (d : Decimal) (l : list Product) (e : exn) :
  filterM (fun p => Decimal_eq (price p) d) l = Raise e ->
  e = InvalidOperation_signal.
Proof.
  induction l as [|x l IH]; simpl; [discriminate|].
  destruct (Decimal_eq (price x) d) as [b|e'] eqn:Hx; simpl.
  - destruct (filterM _ l) as [r|e'']; simpl; [discriminate|].
    intros [= <-]. now apply IH.
  - intros [= <-]. now apply Decimal_eq_Raise in Hx.
Qed.

Lemma filterM_filter_Raise {A} (f : A -> result bool) (keep : A -> bool)
  (l : list A) (e : exn) :
  filterM f (List.filter keep l) = Raise e ->
  exists e', filterM f l = Raise e'.
Proof.
  revert e. induction l as [|x l IH]; intros e; simpl; [discriminate|].
  destruct (keep x); simpl.
  - destruct (f x) as [b|e']; simpl; [|eauto].
    destruct (filterM f (List.filter keep l)) as [r|e'']; simpl; [discriminate|].
    intros _. destruct (IH e'' eq_refl) as [e' ->]. simpl. eauto.
  - intros H. destruct (IH e H) as [e' ->].
    destruct (f x); simpl; eauto.
Qed.

Lemma price_stage_filter_Raise (keep : Product -> bool) request l e :
  price_stage request (List.filter keep l) = Raise e ->
  price_stage request l = Raise e.
Proof.
  unfold price_stage.
  destruct (given (args request !! "price")) as [s|]; [|discriminate].
  destruct (Decimal_of_str s) as [d|e0]; [|trivial].
  destruct (filterM _ (List.filter keep l)) as [r|e1] eqn:H1; [discriminate|].
  destruct (filterM_filter_Raise _ _ _ _ H1) as [e2 H2]. rewrite H2.
  apply filterM_Raise_eq in H1, H2. now subst.
Qed.

(** Holding fewer rows never makes the listing fail. *)
Lemma list_products_restrict_Raise (keep : Product -> bool) st request e :
  list_products (restrict keep st) request = Raise e ->
  list_products st request = Raise e.
Proof.
  rewrite !list_products_stages.
  destruct (category_accepted request); [|trivial].
  rewrite base_set_restrict, narrow_category_filter, narrow_available_filter.
  apply price_stage_filter_Raise.
Qed.

Lemma lower_eqb_same (s t : string) :
  String.eqb (lower s) (lower t) = same_ignoring_case s t.
Proof.
  revert t. induction s as [|a s IH]; intros [|b t]; simpl; try reflexivity.
  rewrite IH. reflexivity.
Qed.

Lemma Forall_filter_keep {A} (P : A -> Prop) (f : A -> bool) (l : list A) :
  Forall P l -> Forall P (List.filter f l).
Proof.
  induction 1; simpl; [constructor|]. destruct (f x); auto.
Qed.

Lemma working_set_rows (P : Product -> Prop) st request :
  Forall P (rows st) ->
  Forall P (narrow_available request
              (narrow_category request (base_set st request))).
Proof.
  intros H. unfold narrow_available, narrow_category, base_set, find_by_name, all.
  repeat match goal with
         | |- context [match ?x with _ => _ end] => destruct x
         | |- Forall _ (List.filter _ _) => apply Forall_filter_keep
         end; assumption.
Qed.




(** C5, as amended.  The filter value computed from the available
    parameter is true exactly when the parameter is "true" up to the case
    of its letters.  A non-empty parameter makes the listing the listing
    of the records whose availability is that value; an empty one applies
    no filter.  No value makes the request fail: a request that fails
    with the parameter fails in the same way without it. *)
Theorem list_products_available (st : Store) (request : Request) (a : string) :
  args request !! "available"%string = Some a ->
  String.eqb (lower a) "true" = same_ignoring_case a "true"
  /\ (a <> ""%string ->
      list_products st request
      = list_products
          (restrict (is_available (same_ignoring_case a "true")) st)
          (without "available" request))
  /\ (a = ""%string ->
      list_products st request
      = list_products st (without "available" request))
  /\ (forall e, list_products st request = Raise e ->
                list_products st (without "available" request) = Raise e).
Proof.
  intros Ha.
  assert (Hcase : String.eqb (lower a) "true" = same_ignoring_case a "true")
    by apply (lower_eqb_same a "true").
  assert (Hfull : a <> ""%string ->
            list_products st request
            = list_products
                (restrict (is_available (same_ignoring_case a "true")) st)
                (without "available" request)).
  { intros Hne. rewrite <- Hcase.
    apply list_products_restrict_available.
    rewrite Ha. now apply given_Some. }
  assert (Hempty : a = ""%string ->
            list_products st request
            = list_products st (without "available" request)).
  { intros ->. symmetry. apply list_products_without. now rewrite Ha. }
  repeat split; try assumption.
  intros e He. destruct (String.eqb_spec a "") as [Heq|Hne].
  - now rewrite <- (Hempty Heq).
  - rewrite (Hfull Hne) in He. now apply list_products_restrict_Raise in He.
Qed.

(** ** Deleting and updating *)

Lemma find_filter_out (i : Z) (l : list Product) :
  List.find (has_id i) (List.filter (fun p => negb (has_id i p)) l) = None.
Proof.
  induction l as [|x l IH]; simpl; [reflexivity|].
  destruct (has_id i x) eqn:Hx; simpl; [exact IH|]. now rewrite Hx.
Qed.

Lemma find_has_id (st : Store) (i : Z) (p : Product) :
  find st i = Some p -> id p = Some i.
Proof.
  unfold find. intros H. apply find_some in H as [_ H].
  unfold has_id in H. destruct (id p) as [j|]; [|discriminate].
  apply Z.eqb_eq in H. now subst.
Qed.

Lemma find_delete (st : Store) (i : Z) (p : Product) :
  find st i = Some p -> find (delete p st) i = None.
Proof.
  intros H. unfold delete, find. simpl.
  rewrite (find_has_id _ _ _ H). apply find_filter_out.
Qed.

(** C9.  For every store and every id, DELETE answers 204 with an empty
    body, whether a record of that id exists or not; afterwards no record
    of that id exists, a second DELETE of the same id answers the same
    and changes nothing, and a DELETE of an id that does not exist leaves
    the store as it is. *)
Theorem delete_products_idempotent (st : Store) (product_id : Z) :
  let first := delete_products st product_id in
  let second := delete_products (snd first) product_id in
  respond (fst first) = no_content
  /\ respond (fst second) = no_content
  /\ find (snd first) product_id = None
  /\ snd second = snd first
  /\ (find st product_id = None -> snd first = st).
Proof.
  cbv zeta. unfold delete_products. simpl.
  assert (Hgone : find match find st product_id with
                        | Some product => delete product st
                        | None => st
                        end product_id = None).
  { destruct (find st product_id) as [p|] eqn:Hf; [|exact Hf].
    now apply find_delete. }
  rewrite Hgone. repeat split; try reflexivity; try assumption.
  now intros ->.
Qed.

(** C10.  On PUT the media type is checked before the record is looked
    up: whenever the Content-Type header is missing or is not exactly
    application/json, the answer is 415, whatever the store holds and
    whether or not a record of the id exists, and the store is left as
    it is. *)
Theorem update_products_checks_content_type_first
  (st : Store) (request : Request) (product_id : Z) :
  headers request !! "Content-Type"%string <> Some "application/json"%string ->
  update_products st request product_id
  = (abort HTTP_415_UNSUPPORTED_MEDIA_TYPE
       "Content-Type must be application/json", st)
  /\ status (respond (fst (update_products st request product_id)))
     = HTTP_415_UNSUPPORTED_MEDIA_TYPE.
Proof.
  intros H.
  assert (Hc : check_content_type request "application/json"
               = abort HTTP_415_UNSUPPORTED_MEDIA_TYPE
                   "Content-Type must be application/json").
  { unfold check_content_type.
    destruct (headers request !! "Content-Type"%string) as [v|]; [|reflexivity].
    destruct (String.eqb_spec v "application/json"); [congruence|reflexivity]. }
  unfold update_products. rewrite Hc. split; reflexivity.
Qed.

Lemma find_replace_same (i : Z) (self : Product) (l : list Product) :
  has_id i self = true ->
  List.find (has_id i) (List.map (replace_row i self) l)
  = option_map (fun _ => self) (List.find (has_id i) l).
Proof.
  intros Hs. unfold replace_row.
  induction l as [|x l IH]; simpl; [reflexivity|].
  destruct (has_id i x) eqn:Hx; [now rewrite Hs|]. now rewrite Hx.
Qed.

Lemma has_id_other (i j : Z) (p : Product) :
  i <> j -> has_id i p = true -> has_id j p = false.
Proof.
  unfold has_id. destruct (id p) as [k|]; [|discriminate].
  intros Hne Hi. apply Z.eqb_eq in Hi. subst k. now apply Z.eqb_neq.
Qed.

Lemma find_replace_other (i j : Z) (self : Product) (l : list Product) :
  i <> j -> has_id i self = true ->
  List.find (has_id j) (List.map (replace_row i self) l)
  = List.find (has_id j) l.
Proof.
  intros Hne Hs. unfold replace_row.
  induction l as [|x l IH]; simpl; [reflexivity|].
  destruct (has_id i x) eqn:Hx.
  - now rewrite (has_id_other i j self Hne Hs), (has_id_other i j x Hne Hx).
  - destruct (has_id j x); [reflexivity | exact IH].
Qed.

(** C8.  [update] on a record without an id fails with a validation
    error and leaves the store as it was.  With an id, it succeeds, no
    row is added or removed, the row of that id (if there is one) becomes
    the record with its current field values, and the rows of the other
    ids are as before. *)
Theorem update_needs_identity (self : Product) (st : Store) :
  match id self with
  | None =>
      exists msg, update self st = (Raise (DataValidationError msg), st)
  | Some i =>
      fst (update self st) = Return tt
      /\ length (rows (snd (update self st))) = length (rows st)
      /\ next_id (snd (update self st)) = next_id st
      /\ (forall old, find st i = Some old ->
                      find (snd (update self st)) i = Some self)
      /\ (forall j, j <> i -> find (snd (update self st)) j = find st j)
  end.
Proof.
  unfold update. destruct (id self) as [i|] eqn:Hid; [|eauto].
  assert (Hs : has_id i self = true)
    by (unfold has_id; rewrite Hid; apply Z.eqb_refl).
  simpl. repeat split.
  - apply length_map.
  - intros old Hold. unfold find in *. simpl.
    now rewrite (find_replace_same i self _ Hs), Hold.
  - intros j Hj. unfold find. simpl.
    apply find_replace_other; [congruence | exact Hs].
Qed.

(** ** Deserializing *)

(** C6.  When a mapping lacks exactly one of the five required fields,
    [deserialize] fails with a validation error whose message names that
    field; no record is returned. *)
Theorem deserialize_names_missing_field
  (self : Product) (d : gmap string pyval) (f : string) :
  In f required_fields -> d !! f = None ->
  (forall g, In g required_fields -> g <> f -> is_Some (d !! g)) ->
  deserialize self (Dict d)
  = Raise (DataValidationError ("Invalid product: missing " +:+ f)).
Proof.
  intros Hf Hmiss Hothers.
  assert (Hget : forall g, In g required_fields -> g <> f ->
                           exists v, required d g = Return v).
  { intros g Hg Hne. destruct (Hothers g Hg Hne) as [v Hv].
    exists v. unfold required. now rewrite Hv. }
  assert (Hno : required d f
                = Raise (DataValidationError
                           ("Invalid product: missing " +:+ f))).
  { unfold required. now rewrite Hmiss. }
  unfold deserialize, mbind, result_bind.
  simpl in Hf.
  destruct Hf as [<-|[<-|[<-|[<-|[<-|[]]]]]];
    repeat match goal with
      | |- context [required d ?g] =>
          first [ rewrite Hno; reflexivity
                | let v := fresh "v" in
                  let Hv := fresh "Hv" in
                  destruct (Hget g) as [v Hv];
                  [simpl; tauto | discriminate | rewrite Hv; cbn [bind]] ]
      end.
Qed.

Lemma required_Raise (d : gmap string pyval) (k : string) (e : exn) :
  required d k = Raise e -> exists msg, e = DataValidationError msg.
Proof.
  unfold required. destruct (d !! k); [discriminate|]. intros [= <-]. eauto.
Qed.

Lemma available_field_not_boolean (v : pyval) :
  is_boolean v = false ->
  available_field v
  = Raise (DataValidationError "Invalid type for boolean [available]").
Proof. destruct v; simpl; [reflexivity | discriminate | reflexivity..]. Qed.

(** C7.  When [available] is present in the mapping and is no boolean,
    [deserialize] fails with a validation error (the one about the type
    of [available] when the five fields are all present), and a POST
    that carries the mapping as its JSON body is answered with 400 and
    creates nothing. *)
Theorem deserialize_rejects_non_boolean_available
  (self : Product) (d : gmap string pyval) (v : pyval) :
  d !! "available"%string = Some v -> is_boolean v = false ->
  (exists msg, deserialize self (Dict d) = Raise (DataValidationError msg))
  /\ ((forall g, In g required_fields -> is_Some (d !! g)) ->
      deserialize self (Dict d)
      = Raise (DataValidationError "Invalid type for boolean [available]"))
  /\ (forall st request,
         headers request !! "Content-Type"%string
         = Some "application/json"%string ->
         get_json request = Return (Dict d) ->
         snd (create_products st request) = st
         /\ status (respond (fst (create_products st request)))
            = HTTP_400_BAD_REQUEST).
Proof.
  intros Hv Hb.
  assert (Hfail : exists msg,
             deserialize Product_new (Dict d) = Raise (DataValidationError msg)
             /\ deserialize self (Dict d) = Raise (DataValidationError msg)).
  { unfold deserialize, mbind, result_bind.
    repeat match goal with
      | |- context [required d ?k] =>
          let H := fresh "H" in
          destruct (required d k) as [?|?] eqn:H; cbn [bind];
          [| destruct (required_Raise _ _ _ H) as [msg ->]; eauto ]
      end.
    unfold required in *. rewrite Hv in *.
    match goal with H : Return v = Return _ |- _ => injection H as <- end.
    rewrite (available_field_not_boolean _ Hb). cbn [bind]. eauto. }
  destruct Hfail as (msg & Hnew & Hself).
  split; [eauto|]. split.
  - intros Hall. unfold deserialize, mbind, result_bind, required.
    destruct (Hall "name"%string) as [? ->]; [simpl; tauto|].
    destruct (Hall "description"%string) as [? ->]; [simpl; tauto|].
    destruct (Hall "price"%string) as [? ->]; [simpl; tauto|].
    destruct (Hall "category"%string) as [? ->]; [simpl; tauto|].
    rewrite Hv. cbn [bind]. now rewrite (available_field_not_boolean _ Hb).
  - intros st request Hct Hjson. unfold create_products, check_content_type.
    rewrite Hct, Hjson. cbn [String.eqb Ascii.eqb Bool.eqb].
    unfold mbind, result_bind. cbn [bind]. rewrite Hnew. split; reflexivity.
Qed.

(** ** Round trip *)

Lemma deserialize_keeps_id (self p : Product) (x : pyobj) :
  deserialize self x = Return p -> id p = id self.
Proof.
  unfold deserialize, mbind, result_bind. destruct x as [|d|]; try discriminate.
  repeat match goal with
    | |- context [bind ?m _] => destruct m; cbn [bind]; [|discriminate]
    end.
  now intros [= <-].
Qed.




Lemma serialize_set_id (i : option Z) (p : Product) (k : string) :
  In k required_fields -> serialize (set_id i p) !! k = serialize p !! k.
Proof.
  simpl. intros [<-|[<-|[<-|[<-|[<-|[]]]]]]; reflexivity.
Qed.







(** * Further properties of the handlers *)

(** ** The media type check *)

Lemma check_content_type_other (request : Request) (ct : string) :
  headers request !! "Content-Type"%string <> Some ct ->
  check_content_type request ct
  = abort HTTP_415_UNSUPPORTED_MEDIA_TYPE ("Content-Type must be " +:+ ct).
Proof.
  intros H. unfold check_content_type.
  destruct (headers request !! "Content-Type"%string) as [v|]; [|reflexivity].
  destruct (String.eqb_spec v ct); [congruence | reflexivity].
Qed.

Lemma check_content_type_same (request : Request) (ct : string) :
  headers request !! "Content-Type"%string = Some ct ->
  check_content_type request ct = Return tt.
Proof.
  intros H. unfold check_content_type. now rewrite H, String.eqb_refl.
Qed.

(** X1.  [check_content_type] returns exactly when the request has a
    Content-Type header equal, character for character, to the expected
    media type; in every other case (no header, another type, the same
    type with a parameter or in another case) it aborts with 415 and the
    message "Content-Type must be <type>". *)
Theorem check_content_type_exact (request : Request) (ct : string) :
  (check_content_type request ct = Return tt
   <-> headers request !! "Content-Type"%string = Some ct)
  /\ (headers request !! "Content-Type"%string <> Some ct ->
      check_content_type request ct
      = abort HTTP_415_UNSUPPORTED_MEDIA_TYPE
          ("Content-Type must be " +:+ ct)).
Proof.
  split; [split|].
  - intros H.
    destruct (decide (headers request !! "Content-Type"%string = Some ct))
      as [Heq|Hne]; [exact Heq|].
    rewrite (check_content_type_other _ _ Hne) in H. discriminate.
  - apply check_content_type_same.
  - apply check_content_type_other.
Qed.

(** ** Creating *)

(** X2.  On POST the media type is checked before the body is read: when
    the Content-Type header is missing or is not exactly
    application/json, the answer is 415 and nothing is created, whatever
    the body is and even when it cannot be parsed. *)
Theorem create_products_checks_content_type_first
  (st : Store) (request : Request) :
  headers request !! "Content-Type"%string <> Some "application/json"%string ->
  create_products st request
  = (abort HTTP_415_UNSUPPORTED_MEDIA_TYPE
       "Content-Type must be application/json", st).
Proof.
  intros H. unfold create_products.
  now rewrite (check_content_type_other _ _ H).
Qed.

(** ** Identities in the store *)

Lemma has_id_true (i : Z) (p : Product) :
  has_id i p = true <-> id p = Some i.
Proof.
  unfold has_id. destruct (id p) as [j|]; split; try discriminate.
  - intros H. apply Z.eqb_eq in H. now subst.
  - intros [= ->]. apply Z.eqb_refl.
Qed.

Lemma id_replace_row (i : Z) (self p : Product) :
  id self = Some i -> id (replace_row i self p) = id p.
Proof.
  intros Hs. unfold replace_row. destruct (has_id i p) eqn:Hp; [|reflexivity].
  apply has_id_true in Hp. congruence.
Qed.

Lemma find_fresh (st : Store) (i : Z) :
  store_ok st -> next_id st <= i -> find st i = None.
Proof.
  intros (_ & Hrows & _) Hi. unfold find.
  induction Hrows as [|p l (j & Hj & Hlt) _ IH]; simpl; [reflexivity|].
  unfold has_id at 1. rewrite Hj.
  destruct (Z.eqb_spec i j); [lia | exact IH].
Qed.

Lemma store_ok_create (self : Product) (st : Store) :
  store_ok st -> store_ok (snd (create self st)).
Proof.
  intros (Hn & Hrows & Hdup). unfold create, store_ok. simpl.
  split; [lia|]. split.
  - apply Forall_app. split.
    + eapply List.Forall_impl; [|exact Hrows].
      intros p (i & Hi & Hlt). exists i. split; [exact Hi | lia].
    + constructor; [|constructor]. exists (next_id st). simpl. split; [reflexivity | lia].
  - rewrite map_app. simpl. apply NoDup_app. split; [exact Hdup|].
    split; [|apply NoDup_singleton].
    intros x Hx Hin. apply list_elem_of_In in Hin. simpl in Hin.
    destruct Hin as [<-|[]].
    apply list_elem_of_In, in_map_iff in Hx as (p & Hp & Hin).
    rewrite List.Forall_forall in Hrows.
    destruct (Hrows p Hin) as (i & Hi & Hlt). rewrite Hi in Hp.
    injection Hp as ->. lia.
Qed.

Lemma store_ok_update (self : Product) (st : Store) (i : Z) :
  id self = Some i -> store_ok st -> store_ok (snd (update self st)).
Proof.
  intros Hs (Hn & Hrows & Hdup). unfold update. rewrite Hs. simpl.
  split; [exact Hn|]. split.
  - apply List.Forall_map. eapply List.Forall_impl; [|exact Hrows].
    intros p (j & Hj & Hlt). exists j.
    now rewrite (id_replace_row i self p Hs).
  - simpl. rewrite List.map_map.
    erewrite List.map_ext; [exact Hdup|].
    intros p. now apply id_replace_row.
Qed.

Lemma NoDup_map_filter {A B} (f : A -> B) (keep : A -> bool) (l : list A) :
  NoDup (List.map f l) -> NoDup (List.map f (List.filter keep l)).
Proof.
  induction l as [|x l IH]; simpl; [trivial|].
  intros H. apply NoDup_cons in H as [Hx Hl].
  destruct (keep x); simpl; [|now apply IH].
  apply NoDup_cons. split; [|now apply IH].
  intros Hin. apply Hx. apply list_elem_of_In in Hin. apply list_elem_of_In.
  apply in_map_iff in Hin as (y & Hy & Hin). apply in_map_iff.
  exists y. split; [exact Hy|]. now apply filter_In in Hin as [Hin _].
Qed.

Lemma store_ok_restrict (keep : Product -> bool) (st : Store) :
  store_ok st -> store_ok (restrict keep st).
Proof.
  intros (Hn & Hrows & Hdup). unfold restrict, store_ok. simpl.
  split; [exact Hn|]. split.
  - now apply Forall_filter_keep.
  - now apply NoDup_map_filter.
Qed.

(** What a deletion leaves: the rows of the other identities *)
Lemma delete_products_rows (st : Store) (i : Z) :
  rows (snd (delete_products st i))
  = List.filter (fun p => negb (has_id i p)) (rows st)
  /\ next_id (snd (delete_products st i)) = next_id st.
Proof.
  unfold delete_products. simpl.
  destruct (find st i) as [p|] eqn:Hf.
  - unfold delete. simpl. rewrite (find_has_id _ _ _ Hf). now split.
  - split; [|reflexivity]. unfold find in Hf.
    induction (rows st) as [|x l IH]; simpl in *; [reflexivity|].
    destruct (has_id i x); [discriminate|]. simpl. f_equal. now apply IH.
Qed.

Lemma delete_products_restrict (st : Store) (i : Z) :
  snd (delete_products st i) = restrict (fun p => negb (has_id i p)) st.
Proof.
  destruct (delete_products_rows st i) as [Hr Hn].
  destruct (snd (delete_products st i)) as [r n]. simpl in *. subst.
  reflexivity.
Qed.

(** X3.  The three handlers that write keep the store well formed: after
    a POST, a PUT or a DELETE, whatever the request and its outcome,
    every row still has an identity, the identities are distinct, not
    negative and below the next identity the store hands out. *)
Theorem handlers_keep_store_ok
  (st : Store) (request : Request) (product_id : Z) :
  store_ok st ->
  store_ok (snd (create_products st request))
  /\ store_ok (snd (update_products st request product_id))
  /\ store_ok (snd (delete_products st product_id)).
Proof.
  intros Hok. split; [|split].
  - unfold create_products.
    destruct (check_content_type request "application/json"); [|exact Hok].
    destruct (get_json request ≫= deserialize Product_new) as [p|e];
      [|exact Hok].
    pose proof (store_ok_create p st Hok) as H.
    destruct (create p st) as [p' st']. exact H.
  - unfold update_products.
    destruct (check_content_type request "application/json"); [|exact Hok].
    destruct (find st product_id) as [old|]; [|exact Hok].
    destruct (get_json request ≫= deserialize old) as [p|e]; [|exact Hok].
    pose proof (store_ok_update (set_id (Some product_id) p) st product_id
                  eq_refl Hok) as H.
    destruct (update (set_id (Some product_id) p) st) as [[u|e] st']; exact H.
  - rewrite delete_products_restrict. now apply store_ok_restrict.
Qed.

Lemma shirts_and_pants_ok : store_ok shirts_and_pants.
Proof.
  unfold store_ok. simpl. split; [lia|]. split.
  - repeat constructor; eexists; (split; [reflexivity | lia]).
  - apply NoDup_ListNoDup.
    repeat constructor; simpl; intuition discriminate.
Qed.

Lemma find_app_fresh (i : Z) (l : list Product) (p : Product) :
  List.find (has_id i) l = None -> id p = Some i ->
  List.find (has_id i) (l ++ [p]) = Some p.
Proof.
  intros Hl Hp. induction l as [|x l IH]; simpl in *.
  - now rewrite (proj2 (has_id_true i p) Hp).
  - destruct (has_id i x); [discriminate | now apply IH].
Qed.

(** X4.  A POST with the JSON media type whose body deserializes creates
    the record under the next identity of the store: the answer is 201
    with the serialized record, that identity in it, and its location; a
    GET of that identity then returns the same representation, and the
    listing is the former one followed by the new record. *)
Theorem create_products_then_get
  (st : Store) (request : Request) (data : pyobj) (p : Product) :
  store_ok st ->
  headers request !! "Content-Type"%string = Some "application/json"%string ->
  get_json request = Return data ->
  deserialize Product_new data = Return p ->
  let created := set_id (Some (next_id st)) p in
  let st' := snd (create_products st request) in
  fst (create_products st request)
  = Return {| status := HTTP_201_CREATED;
              body := Json (Dict (serialize created));
              location := Some (url_for_get_products (next_id st)) |}
  /\ find st (next_id st) = None
  /\ get_products st' (next_id st)
     = Return (jsonify (Dict (serialize created)) HTTP_200_OK)
  /\ all st' = all st ++ [created].
Proof.
  intros Hok Hct Hjson Hp. cbv zeta. unfold create_products.
  rewrite (check_content_type_same _ _ Hct), Hjson.
  unfold mbind, result_bind. cbn [bind]. rewrite Hp.
  unfold create. cbn [fst snd id set_id default].
  pose proof (find_fresh st (next_id st) Hok ltac:(lia)) as Hfresh.
  repeat split; [exact Hfresh|].
  unfold get_products, find. cbn [rows].
  now rewrite (find_app_fresh _ _ (set_id (Some (next_id st)) p) Hfresh eq_refl).
Qed.

(** ** Reading, updating and deleting *)

Lemma find_filter_other (i j : Z) (l : list Product) :
  j <> i ->
  List.find (has_id j) (List.filter (fun p => negb (has_id i p)) l)
  = List.find (has_id j) l.
Proof.
  intros Hne. induction l as [|x l IH]; simpl; [reflexivity|].
  destruct (has_id i x) eqn:Hi; simpl.
  - now rewrite (has_id_other i j x (not_eq_sym Hne) Hi).
  - now rewrite IH.
Qed.

(** X5.  A GET of one product answers 200 with the serialized record when
    a record of that identity exists and 404 when none does.  After a
    DELETE of an identity, a GET of it answers 404 with the message
    "Product with id '<id>' was not found.", and a GET of any other
    identity answers what it answered before. *)
Theorem get_products_after_delete (st : Store) (i : Z) :
  (forall p, find st i = Some p ->
             get_products st i
             = Return (jsonify (Dict (serialize p)) HTTP_200_OK))
  /\ (find st i = None ->
      respond (get_products st i)
      = error_response HTTP_404_NOT_FOUND
          ("Product with id '" +:+ str_of_int i +:+ "' was not found."))
  /\ respond (get_products (snd (delete_products st i)) i)
     = error_response HTTP_404_NOT_FOUND
         ("Product with id '" +:+ str_of_int i +:+ "' was not found.")
  /\ (forall j, j <> i ->
        get_products (snd (delete_products st i)) j = get_products st j).
Proof.
  split; [|split; [|split]].
  - intros p Hp. unfold get_products. now rewrite Hp.
  - intros Hn. unfold get_products. now rewrite Hn.
  - unfold get_products, find.
    rewrite (proj1 (delete_products_rows st i)), find_filter_out. reflexivity.
  - intros j Hj. unfold get_products, find.
    now rewrite (proj1 (delete_products_rows st i)), find_filter_other.
Qed.

(** X6.  On PUT the checks come in the order media type, existence,
    body: with the JSON media type and no record of the identity, the
    answer is 404 and the store is left as it is, whatever the body is
    and even when it cannot be parsed or would not validate. *)
Theorem update_products_not_found_before_body
  (st : Store) (request : Request) (product_id : Z) :
  headers request !! "Content-Type"%string = Some "application/json"%string ->
  find st product_id = None ->
  update_products st request product_id
  = (abort HTTP_404_NOT_FOUND
       ("Product with id '" +:+ str_of_int product_id
        +:+ "' was not found."), st).
Proof.
  intros Hct Hf. unfold update_products.
  now rewrite (check_content_type_same _ _ Hct), Hf.
Qed.

(** X7.  A PUT with the JSON media type on an existing record whose body
    deserializes answers 200 with the new field values under the
    identity of the path, whatever identity the body carries: a GET of
    that identity then returns the same representation, a GET of any
    other identity answers what it answered before, and the store has as
    many rows as before. *)
Theorem update_products_then_get
  (st : Store) (request : Request) (product_id : Z)
  (old p : Product) (data : pyobj) :
  headers request !! "Content-Type"%string = Some "application/json"%string ->
  find st product_id = Some old ->
  get_json request = Return data ->
  deserialize old data = Return p ->
  let updated := set_id (Some product_id) p in
  let st' := snd (update_products st request product_id) in
  fst (update_products st request product_id)
  = Return (jsonify (Dict (serialize updated)) HTTP_200_OK)
  /\ get_products st' product_id
     = Return (jsonify (Dict (serialize updated)) HTTP_200_OK)
  /\ (forall j, j <> product_id -> get_products st' j = get_products st j)
  /\ length (rows st') = length (rows st).
Proof.
  intros Hct Hf Hjson Hp. cbv zeta. unfold update_products.
  rewrite (check_content_type_same _ _ Hct), Hf, Hjson.
  unfold mbind, result_bind. cbn [bind]. rewrite Hp.
  unfold update. cbn [id set_id fst snd].
  assert (Hs : has_id product_id (set_id (Some product_id) p) = true)
    by (apply has_id_true; reflexivity).
  split; [reflexivity|]. split; [|split].
  - unfold get_products, find in *. cbn [rows].
    now rewrite (find_replace_same _ _ _ Hs), Hf.
  - intros j Hj. unfold get_products, find. cbn [rows].
    now rewrite (find_replace_other product_id j _ _ (not_eq_sym Hj) Hs).
  - cbn [rows]. apply length_map.
Qed.

(** ** The listing as one selection *)

Lemma filter_filter_andb {A} (f g : A -> bool) (l : list A) :
  List.filter f (List.filter g l) = List.filter (fun x => g x && f x) l.
Proof.
  induction l as [|x l IH]; simpl; [reflexivity|].
  destruct (g x); simpl; [|exact IH]. destruct (f x); now rewrite IH.
Qed.

Lemma filter_true {A} (l : list A) : List.filter (fun _ => true) l = l.
Proof. induction l as [|x l IH]; simpl; [reflexivity | now rewrite IH]. Qed.

Lemma base_set_name_ok (st : Store) (request : Request) :
  base_set st request = List.filter (name_ok request) (all st).
Proof.
  unfold base_set, name_ok, find_by_name, all.
  destruct (given (args request !! "name")); [reflexivity|].
  now rewrite filter_true.
Qed.

Lemma narrow_category_ok (request : Request) (l : list Product) :
  narrow_category request l = List.filter (category_ok request) l.
Proof.
  unfold narrow_category, category_ok.
  destruct (given (args request !! "category")) as [c|];
    [destruct (Category_getattr (upper c))|];
    reflexivity || now rewrite filter_true.
Qed.

Lemma narrow_available_ok (request : Request) (l : list Product) :
  narrow_available request l = List.filter (available_ok request) l.
Proof.
  unfold narrow_available, available_ok.
  destruct (given (args request !! "available"));
    reflexivity || now rewrite filter_true.
Qed.

Lemma narrow_price_ok (request : Request) (l : list Product) :
  narrow_price request l = List.filter (price_ok request) l.
Proof.
  unfold narrow_price, price_ok.
  destruct (given (args request !! "price")) as [s|];
    [destruct (Decimal_of_str s)|];
    reflexivity || now rewrite filter_true.
Qed.

Lemma stages_selected (st : Store) (request : Request) :
  narrow_price request
    (narrow_available request
       (narrow_category request (base_set st request)))
  = List.filter (selected request) (all st).
Proof.
  rewrite base_set_name_ok, narrow_category_ok, narrow_available_ok,
    narrow_price_ok, !filter_filter_andb.
  apply List.filter_ext. intros p. unfold selected.
  now rewrite !andb_assoc.
Qed.

(** X8.  A listing that succeeds returns, in the order of the store,
    exactly the records that pass every filter given in the request: the
    records with the given name, of the given category, with the given
    availability and with a price equal to the given one.  In particular
    a request that gives no filter lists every record. *)
Theorem list_products_selects (st : Store) (request : Request) :
  (forall resp,
      list_products st request = Return resp ->
      resp = listing (List.filter (selected request) (all st)))
  /\ (given (args request !! "name"%string) = None ->
      given (args request !! "category"%string) = None ->
      given (args request !! "available"%string) = None ->
      given (args request !! "price"%string) = None ->
      list_products st request = Return (listing (all st))).
Proof.
  split.
  - intros resp H. rewrite list_products_stages in H.
    destruct (category_accepted request); [|discriminate].
    apply narrow_price_stage in H. now rewrite stages_selected in H.
  - intros Hn Hc Ha Hp. rewrite list_products_stages.
    unfold category_accepted, price_stage, narrow_available, narrow_category,
      base_set.
    now rewrite Hn, Hc, Ha, Hp.
Qed.

(** X9.  The listing answers 200 or 400 and nothing else: every failure of
    a filter, an unknown category, a malformed price or a price
    comparison that raises, is turned into a 400. *)
Theorem list_products_status (st : Store) (request : Request) :
  status (respond (list_products st request)) = HTTP_200_OK
  \/ status (respond (list_products st request)) = HTTP_400_BAD_REQUEST.
Proof.
  rewrite list_products_stages.
  destruct (category_accepted request); [|now right].
  unfold price_stage.
  destruct (given (args request !! "price")) as [s|]; [|now left].
  destruct (Decimal_of_str s) as [d|e]; [|now right].
  destruct (filterM _ _); [now left | now right].
Qed.

(** ** Equivalent values of a query parameter *)

Lemma args_with_arg_eq (k v : string) (request : Request) :
  args (with_arg k v request) !! k = Some v.
Proof. unfold with_arg. simpl. apply lookup_insert_eq. Qed.

Lemma args_with_arg_ne (k k' v : string) (request : Request) :
  k <> k' -> args (with_arg k v request) !! k' = args request !! k'.
Proof. intros H. unfold with_arg. simpl. now apply lookup_insert_ne. Qed.

(** X10.  The category parameter is matched without regard to case: two
    requests that differ only in the case of the letters of a non-empty
    category parameter get the same status, and when the parameter
    names a member of the enumeration they get the same answer. *)
Theorem list_products_category_case
  (st : Store) (request : Request) (c1 c2 : string) :
  c1 <> ""%string -> c2 <> ""%string -> upper c1 = upper c2 ->
  status (respond (list_products st (with_arg "category" c1 request)))
  = status (respond (list_products st (with_arg "category" c2 request)))
  /\ (forall e, Category_name e = upper c1 ->
        list_products st (with_arg "category" c1 request)
        = list_products st (with_arg "category" c2 request)).
Proof.
  intros H1 H2 Hup.
  assert (Hform : forall c, c <> ""%string ->
            list_products st (with_arg "category" c request)
            = match Category_getattr (upper c) with
              | Return e =>
                  price_stage request
                    (narrow_available request
                       (List.filter (in_category e) (base_set st request)))
              | Raise _ =>
                  abort HTTP_400_BAD_REQUEST ("Invalid category: " +:+ c)
              end).
  { intros c Hc. rewrite list_products_stages.
    unfold category_accepted, price_stage, narrow_available, narrow_category,
      base_set.
    rewrite args_with_arg_eq, !args_with_arg_ne by discriminate.
    rewrite (given_Some c Hc).
    destruct (Category_getattr (upper c)); reflexivity. }
  rewrite (Hform c1 H1), (Hform c2 H2), Hup. split.
  - destruct (Category_getattr (upper c2)); reflexivity.
  - intros e He. rewrite <- He, Category_getattr_name. reflexivity.
Qed.

(** X11.  Every non-empty value of the available parameter that is not
    "true" up to case selects the unavailable records: two requests
    that differ only in a non-empty available parameter get the same
    answer whenever both values are "true" up to case or neither is. *)
Theorem list_products_available_values
  (st : Store) (request : Request) (a1 a2 : string) :
  a1 <> ""%string -> a2 <> ""%string ->
  same_ignoring_case a1 "true" = same_ignoring_case a2 "true" ->
  list_products st (with_arg "available" a1 request)
  = list_products st (with_arg "available" a2 request).
Proof.
  intros H1 H2 Hsame.
  rewrite <- !(lower_eqb_same _ "true") in Hsame.
  change (lower "true") with "true"%string in Hsame.
  rewrite !list_products_stages.
  unfold category_accepted, price_stage, narrow_available, narrow_category,
    base_set.
  rewrite !args_with_arg_eq, !args_with_arg_ne by discriminate.
  now rewrite (given_Some a1 H1), (given_Some a2 H2), Hsame.
Qed.

(** ** Prices are compared by value *)

Lemma value_eqb_scaled (s1 s2 : bool) (c1 c2 : N) (e1 e2 k : Z) :
  k <= e1 -> k <= e2 ->
  value_eqb (Finite s1 c1 e1) (Finite s2 c2 e2) = true
  <-> signed s1 c1 * 10 ^ (e1 - k) = signed s2 c2 * 10 ^ (e2 - k).
Proof.
  intros H1 H2. unfold value_eqb. rewrite Z.eqb_eq.
  set (m := Z.min e1 e2).
  assert (Hm1 : m <= e1) by (unfold m; lia).
  assert (Hm2 : m <= e2) by (unfold m; lia).
  assert (Hk : k <= m) by (unfold m; lia).
  replace (e1 - k) with ((e1 - m) + (m - k)) by lia.
  replace (e2 - k) with ((e2 - m) + (m - k)) by lia.
  rewrite !Z.pow_add_r by lia. rewrite !Z.mul_assoc.
  assert (Hpos : 10 ^ (m - k) <> 0) by (apply Z.pow_nonzero; lia).
  split.
  - intros ->. reflexivity.
  - intros H. now apply Z.mul_cancel_r in H.
Qed.

Lemma value_eqb_congruence (p d1 d2 : Decimal) :
  is_finite d1 = true -> is_finite d2 = true ->
  value_eqb d1 d2 = true ->
  value_eqb p d1 = value_eqb p d2.
Proof.
  destruct d1 as [s1 c1 e1| |]; try discriminate.
  destruct d2 as [s2 c2 e2| |]; try discriminate.
  intros _ _ H12. destruct p as [s c e| |]; try reflexivity.
  set (k := Z.min e (Z.min e1 e2)).
  assert (Hk : k <= e /\ k <= e1 /\ k <= e2) by (unfold k; lia).
  destruct Hk as (Hke & Hk1 & Hk2).
  apply (value_eqb_scaled _ _ _ _ _ _ k Hk1 Hk2) in H12.
  apply eq_true_iff_eq.
  rewrite (value_eqb_scaled _ _ _ _ _ _ k Hke Hk1),
    (value_eqb_scaled _ _ _ _ _ _ k Hke Hk2).
  now rewrite H12.
Qed.

(** X12.  The price parameter is compared by value, not by notation: two
    requests that differ only in a non-empty price parameter get the same
    answer when [Decimal()] makes of the two strings finite decimals of
    equal value (such as "10", "10.00" and "1E+1"), no stored price being
    a signaling NaN. *)
Theorem list_products_price_notation
  (st : Store) (request : Request) (s1 s2 : string) (d1 d2 : Decimal) :
  s1 <> ""%string -> s2 <> ""%string ->
  Decimal_of_str s1 = Return d1 -> Decimal_of_str s2 = Return d2 ->
  is_finite d1 = true -> is_finite d2 = true ->
  value_eqb d1 d2 = true ->
  Forall (fun p => is_snan (price p) = false) (rows st) ->
  list_products st (with_arg "price" s1 request)
  = list_products st (with_arg "price" s2 request).
Proof.
  intros Hn1 Hn2 Hs1 Hs2 Hf1 Hf2 Heq Hrows.
  assert (Hform : forall s d,
            s <> ""%string ->
            Decimal_of_str s = Return d -> is_finite d = true ->
            list_products st (with_arg "price" s request)
            = if category_accepted request
              then Return
                     (listing
                        (List.filter (has_price d)
                           (narrow_available request
                              (narrow_category request
                                 (base_set st request)))))
              else abort HTTP_400_BAD_REQUEST
                     ("Invalid category: "
                      +:+ default ""%string
                            (given (args request !! "category")))).
  { intros s d Hne Hs Hf.
    rewrite list_products_stages.
    unfold category_accepted, price_stage, narrow_available, narrow_category,
      base_set.
    rewrite args_with_arg_eq, !args_with_arg_ne by discriminate.
    rewrite (given_Some s Hne), Hs.
    rewrite (filterM_total _ (has_price d)); [reflexivity|].
    apply (working_set_rows _ st request).
    eapply List.Forall_impl; [|exact Hrows]. intros p Hp.
    apply Decimal_eq_quiet; [exact Hp | now destruct d]. }
  rewrite (Hform s1 d1 Hn1 Hs1 Hf1), (Hform s2 d2 Hn2 Hs2 Hf2).
  destruct (category_accepted request); [|reflexivity].
  do 2 f_equal. apply List.filter_ext. intros p. unfold has_price.
  now apply value_eqb_congruence.
Qed.

(** ** Listing after a deletion *)

Lemma filterM_filter_Return {A} (f : A -> result bool) (keep : A -> bool)
  (l r : list A) :
  filterM f l = Return r ->
  filterM f (List.filter keep l) = Return (List.filter keep r).
Proof.
  revert r. induction l as [|x l IH]; simpl; intros r H.
  - now injection H as <-.
  - destruct (f x) as [b|e] eqn:Hx; simpl in H; [|discriminate].
    destruct (filterM f l) as [r'|e]; simpl in H; [|discriminate].
    injection H as <-. specialize (IH r' eq_refl).
    destruct (keep x) eqn:Hk; simpl.
    + rewrite Hx, IH. simpl. destruct b; simpl; now rewrite ?Hk.
    + rewrite IH. destruct b; simpl; now rewrite ?Hk.
Qed.

Lemma price_stage_filter_Return (keep : Product -> bool) request l resp :
  price_stage request l = Return resp ->
  price_stage request (List.filter keep l)
  = Return (listing (List.filter keep (narrow_price request l))).
Proof.
  unfold price_stage, narrow_price.
  destruct (given (args request !! "price")) as [s|]; [|reflexivity].
  destruct (Decimal_of_str s) as [d|e]; [|discriminate].
  destruct (filterM _ l) as [r|e] eqn:Hf; [|discriminate].
  intros _. rewrite (filterM_filter_Return _ keep _ _ Hf).
  now rewrite (filterM_Return _ _ _ Hf).
Qed.

(** X13.  A DELETE removes the record from every listing and nothing
    else: a listing that succeeded before the DELETE succeeds after it
    and returns the same records, in the same order, without the one of
    the deleted identity. *)
Theorem list_products_after_delete
  (st : Store) (request : Request) (i : Z) (resp : Response) :
  list_products st request = Return resp ->
  resp = listing (List.filter (selected request) (all st))
  /\ list_products (snd (delete_products st i)) request
     = Return (listing
                 (List.filter (fun p => negb (has_id i p))
                    (List.filter (selected request) (all st)))).
Proof.
  intros H. rewrite delete_products_restrict.
  rewrite !list_products_stages in *.
  destruct (category_accepted request); [|discriminate].
  rewrite base_set_restrict, narrow_category_filter, narrow_available_filter.
  rewrite (price_stage_filter_Return _ _ _ _ H).
  apply narrow_price_stage in H. rewrite stages_selected in *. now split.
Qed.

(** ** The clean-up loop of the acceptance tests *)

Lemma delete_listed_rows (ids : list pyval) (st : Store) :
  Forall (fun v => exists i, v = VInt i /\ 0 <= i) ids ->
  exists st',
    delete_listed st ids = Some st'
    /\ rows st' = List.filter (fun p => negb (listed ids p)) (rows st)
    /\ next_id st' = next_id st.
Proof.
  intros H. revert st. induction H as [|v ids (i & -> & Hi) _ IH]; intros st.
  - exists st. simpl. now rewrite filter_true.
  - destruct (IH (snd (delete_products st i))) as (st' & Hd & Hr & Hn).
    exists st'. cbn [delete_listed request_delete].
    destruct (Z.leb_spec 0 i) as [_|]; [|lia].
    change (status (respond (fst (delete_products st i)))
            =? HTTP_204_NO_CONTENT) with true.
    cbv iota. split; [exact Hd|].
    destruct (delete_products_rows st i) as [Hr1 Hn1].
    rewrite Hr, Hr1, Hn, Hn1, filter_filter_andb. split; [|reflexivity].
    apply List.filter_ext. intros p. unfold listed. simpl.
    now rewrite negb_orb.
Qed.

Lemma filter_none {A} (f : A -> bool) (l : list A) :
  Forall (fun x => f x = true) l ->
  List.filter (fun x => negb (f x)) l = [].
Proof.
  induction 1 as [|x l Hx _ IH]; simpl; [reflexivity|]. now rewrite Hx.
Qed.

Lemma listed_ids_listing (l : list Product) :
  listed_ids (listing l)
  = List.map (fun p => match id p with Some i => VInt i | None => VNone end) l.
Proof.
  unfold listed_ids, listing. simpl. rewrite List.map_map.
  apply List.map_ext. intros p. reflexivity.
Qed.

Lemma list_products_no_filter (st : Store) :
  list_products st (query []) = Return (listing (all st)).
Proof. reflexivity. Qed.

(** X14.  The clean-up loop of the acceptance tests (list the products,
    then DELETE each listed id) meets every expectation it makes, 200 for
    the listing and 204 for each deletion, and leaves the service
    without any product: the listing is then empty.  The next identity
    of the store is not reset. *)
Theorem delete_all_products_empties (st : Store) :
  store_ok st ->
  exists st',
    delete_all_products st = Some st'
    /\ rows st' = []
    /\ next_id st' = next_id st
    /\ list_products st' (query []) = Return (listing []).
Proof.
  intros (_ & Hrows & _). unfold delete_all_products.
  rewrite list_products_no_filter.
  change (respond (Return (listing (all st)))) with (listing (all st)).
  change (status (listing (all st)) =? HTTP_200_OK) with true.
  cbv iota zeta. rewrite listed_ids_listing.
  set (ids := List.map _ (all st)).
  assert (Hids : Forall (fun v => exists i, v = VInt i /\ 0 <= i) ids).
  { unfold ids, all. apply List.Forall_map.
    eapply List.Forall_impl; [|exact Hrows].
    intros p (i & Hi & Hlt). exists i. rewrite Hi. split; [reflexivity | lia]. }
  destruct (delete_listed_rows ids st Hids) as (st' & Hd & Hr & Hn).
  exists st'. split; [exact Hd|].
  assert (Hnil : rows st' = []).
  { rewrite Hr. unfold ids, all.
    assert (Hall : Forall (fun p => listed ids p = true) (rows st)).
    { rewrite List.Forall_forall. intros p Hin. unfold listed.
      apply existsb_exists.
      rewrite List.Forall_forall in Hrows.
      destruct (Hrows p Hin) as (i & Hi & _).
      exists (VInt i). split.
      - unfold ids, all. apply in_map_iff. exists p. now rewrite Hi.
      - now apply has_id_true. }
    now apply filter_none. }
  split; [exact Hnil|]. split; [exact Hn|].
  rewrite list_products_no_filter. unfold all. now rewrite Hnil.
Qed.

(** ** Repeating and undoing a request *)

Lemma deserialize_self (self self' p : Product) (data : pyobj) :
  deserialize self data = Return p ->
  deserialize self' data = Return (set_id (id self') p).
Proof.
  unfold deserialize, mbind, result_bind.
  destruct data as [|d|]; try discriminate.
  repeat match goal with
    | |- context [bind ?m _] => destruct m; cbn [bind]; [|discriminate]
    end.
  now intros [= <-].
Qed.

Lemma replace_row_twice (i : Z) (u : Product) (l : list Product) :
  has_id i u = true ->
  List.map (replace_row i u) (List.map (replace_row i u) l)
  = List.map (replace_row i u) l.
Proof.
  intros Hu. rewrite List.map_map. apply List.map_ext. intros p.
  unfold replace_row. destruct (has_id i p) eqn:Hp; now rewrite ?Hu, ?Hp.
Qed.

(** X15.  PUT is idempotent: repeating a PUT that succeeded, with the
    same body on the same identity, gives the same answer and leaves the
    store as the first one left it. *)
Theorem update_products_idempotent
  (st : Store) (request : Request) (product_id : Z) (resp : Response) :
  fst (update_products st request product_id) = Return resp ->
  update_products (snd (update_products st request product_id))
    request product_id
  = (Return resp, snd (update_products st request product_id)).
Proof.
  unfold update_products.
  destruct (check_content_type request "application/json") as [[]|e] eqn:Hct;
    [|discriminate].
  destruct (find st product_id) as [old|] eqn:Hf; [|discriminate].
  destruct (get_json request) as [data|e] eqn:Hj; [|discriminate].
  unfold mbind, result_bind. cbn [bind].
  destruct (deserialize old data) as [p|e] eqn:Hp; [|discriminate].
  unfold update. cbn [id set_id fst snd]. intros [= <-].
  set (u := set_id (Some product_id) p).
  assert (Hu : has_id product_id u = true) by (apply has_id_true; reflexivity).
  unfold find in *. cbn [rows].
  rewrite (find_replace_same _ _ _ Hu), Hf. cbn [option_map bind].
  rewrite (deserialize_self old u p data Hp).
  change (set_id (Some product_id) (set_id (id u) p)) with u.
  cbn [next_id]. now rewrite (replace_row_twice _ _ _ Hu).
Qed.

Lemma filter_out_fresh (i : Z) (l : list Product) :
  List.find (has_id i) l = None ->
  List.filter (fun p => negb (has_id i p)) l = l.
Proof.
  induction l as [|x l IH]; simpl; [reflexivity|].
  destruct (has_id i x); [discriminate|]. intros H. simpl. now rewrite IH.
Qed.

(** X16.  A DELETE of the record a POST has just created undoes the
    creation as far as the records go: the store holds the rows it held
    before the POST, in the same order; only the next identity has
    moved on, so the deleted identity is not handed out again. *)
Theorem delete_products_undoes_create
  (st : Store) (request : Request) (resp : Response) :
  store_ok st ->
  fst (create_products st request) = Return resp ->
  let st' := snd (delete_products (snd (create_products st request))
                    (next_id st)) in
  rows st' = rows st /\ next_id st' = next_id st + 1.
Proof.
  intros Hok. cbv zeta. unfold create_products.
  destruct (check_content_type request "application/json"); [|discriminate].
  destruct (get_json request ≫= deserialize Product_new) as [p|e];
    [|discriminate].
  unfold create. cbn [fst snd]. intros _.
  destruct (delete_products_rows
              {| rows := rows st ++ [set_id (Some (next_id st)) p];
                 next_id := next_id st + 1 |} (next_id st)) as [Hr Hn].
  rewrite Hr, Hn. cbn [rows next_id]. split; [|reflexivity].
  rewrite List.filter_app. simpl.
  rewrite (proj2 (has_id_true (next_id st) (set_id (Some (next_id st)) p))
             eq_refl).
  simpl. rewrite app_nil_r. apply filter_out_fresh.
  apply (find_fresh st (next_id st) Hok). lia.
Qed.

End properties.

(** * The properties at concrete requests

    The statements below are closed: they take the ASCII functions for
    [str.upper] and [Decimal(str)], on requests made of ASCII text. *)

#[local] Existing Instance reference.

Lemma list_products_sequential_witness :
  listing [set_id (Some 1) (sample "Shirt" CLOTHS)]
  = listing
      (narrow_price shirt_in_cloths
         (narrow_available shirt_in_cloths
            (narrow_category shirt_in_cloths
               (base_set shirts_and_pants shirt_in_cloths))))
  /\ list_products shirts_and_pants shirt_in_cloths
     = Return (listing [set_id (Some 1) (sample "Shirt" CLOTHS)]).
Proof.
  split.
  - apply (proj1 list_products_sequential shirts_and_pants shirt_in_cloths).
    reflexivity.
  - apply (proj2 list_products_sequential shirts_and_pants
             (set_id (Some 1) (sample "Shirt" CLOTHS))
             (set_id (Some 2) (sample "Pants" CLOTHS))
             (set_id (Some 3) (sample "Shirt" FOOD))); reflexivity.
Defined.

(** C1 as stated fails where the name parameter is present and empty:
    the base set stays every record and is not the result of the name
    lookup, which finds nothing. *)
Lemma empty_name_is_no_lookup :
  args empty_name !! "name"%string = Some ""%string
  /\ list_products shirts_and_pants empty_name
     = Return (listing (all shirts_and_pants))
  /\ find_by_name shirts_and_pants "" = []
  /\ list_products shirts_and_pants empty_name
     <> Return (listing (find_by_name shirts_and_pants "")).
Proof.
  split; [reflexivity|]. split; [reflexivity|]. split; [reflexivity|].
  intros H. vm_compute in H. discriminate H.
Qed.





Lemma list_products_available_witness :
  list_products shirts_and_pants (query [("available", "TRUE")]%string)
  = list_products (restrict (is_available true) shirts_and_pants)
      (without "available" (query [("available", "TRUE")]%string)).
Proof.
  apply (proj1 (proj2 (list_products_available shirts_and_pants
                         (query [("available", "TRUE")]%string) "TRUE"
                         eq_refl))).
  discriminate.
Defined.

(** C5 as stated fails where the available parameter is present and
    empty: the value it stands for is false, yet the listing is not the
    one filtered on false but every record, all of them available. *)
Lemma empty_available_is_no_filter :
  args empty_available !! "available"%string = Some ""%string
  /\ String.eqb (lower "") "true" = false
  /\ list_products shirts_and_pants empty_available
     = Return (listing (all shirts_and_pants))
  /\ forallb available (all shirts_and_pants) = true
  /\ list_products shirts_and_pants empty_available
     <> Return (listing (List.filter (is_available false)
                           (all shirts_and_pants))).
Proof.
  repeat split. intros H. vm_compute in H. discriminate H.
Qed.

Lemma delete_products_idempotent_witness :
  snd (delete_products shirts_and_pants 7) = shirts_and_pants.
Proof.
  apply (proj2 (proj2 (proj2 (proj2
           (delete_products_idempotent shirts_and_pants 7))))).
  reflexivity.
Defined.

Lemma update_products_checks_content_type_first_witness :
  find empty_store 0 = None
  /\ status (respond (fst (update_products empty_store (query []) 0)))
     = HTTP_415_UNSUPPORTED_MEDIA_TYPE.
Proof.
  split; [reflexivity|].
  apply (update_products_checks_content_type_first empty_store (query []) 0).
  discriminate.
Defined.

Lemma update_needs_identity_witness :
  (exists msg,
      update (sample "Shirt" TOOLS) shirts_and_pants
      = (Raise (DataValidationError msg), shirts_and_pants))
  /\ find (snd (update (set_id (Some 2) (sample "Socks" CLOTHS))
                  shirts_and_pants)) 2
     = Some (set_id (Some 2) (sample "Socks" CLOTHS)).
Proof.
  split.
  - exact (update_needs_identity (sample "Shirt" TOOLS) shirts_and_pants).
  - apply (proj1 (proj2 (proj2 (proj2
             (update_needs_identity (set_id (Some 2) (sample "Socks" CLOTHS))
                shirts_and_pants))))
             (set_id (Some 2) (sample "Pants" CLOTHS))).
    reflexivity.
Defined.

Lemma deserialize_names_missing_field_witness :
  deserialize Product_new
    (Dict (base.delete "price"%string
             (serialize (sample "Shirt" CLOTHS))))
  = Raise (DataValidationError "Invalid product: missing price").
Proof.
  apply (deserialize_names_missing_field Product_new _ "price").
  - simpl. tauto.
  - reflexivity.
  - intros g Hg Hne. simpl in Hg.
    destruct Hg as [<-|[<-|[<-|[<-|[<-|[]]]]]];
      solve [congruence | eexists; reflexivity].
Defined.

Lemma deserialize_rejects_non_boolean_available_witness :
  deserialize Product_new (Dict available_as_text)
  = Raise (DataValidationError "Invalid type for boolean [available]")
  /\ status (respond (fst (create_products shirts_and_pants
                             (json_request (Dict available_as_text)))))
     = HTTP_400_BAD_REQUEST.
Proof.
  pose proof (deserialize_rejects_non_boolean_available Product_new
                available_as_text (VStr "true") eq_refl eq_refl)
    as (_ & Hmsg & Hpost).
  split.
  - apply Hmsg. intros g Hg. simpl in Hg.
    destruct Hg as [<-|[<-|[<-|[<-|[<-|[]]]]]]; eexists; reflexivity.
  - apply (Hpost shirts_and_pants (json_request _)); reflexivity.
Defined.



Lemma check_content_type_exact_witness :
  check_content_type (with_header "application/json; charset=utf-8")
    "application/json"
  = abort HTTP_415_UNSUPPORTED_MEDIA_TYPE
      "Content-Type must be application/json"
  /\ headers (json_request (Scalar VNone)) !! "Content-Type"%string
     = Some "application/json"%string.
Proof.
  split.
  - apply (proj2 (check_content_type_exact
                    (with_header "application/json; charset=utf-8")
                    "application/json")).
    discriminate.
  - apply (proj1 (proj1 (check_content_type_exact
                           (json_request (Scalar VNone)) "application/json"))).
    reflexivity.
Defined.

Lemma create_products_checks_content_type_first_witness :
  create_products shirts_and_pants
    (with_header "application/json; charset=utf-8")
  = (abort HTTP_415_UNSUPPORTED_MEDIA_TYPE
       "Content-Type must be application/json", shirts_and_pants).
Proof.
  apply create_products_checks_content_type_first. discriminate.
Defined.

Lemma handlers_keep_store_ok_witness :
  store_ok (snd (create_products shirts_and_pants
                   (json_request (Dict (serialize (sample "Hat" CLOTHS))))))
  /\ store_ok (snd (update_products shirts_and_pants
                      (json_request (Dict (serialize (sample "Hat" CLOTHS))))
                      2))
  /\ store_ok (snd (delete_products shirts_and_pants 2)).
Proof.
  apply (handlers_keep_store_ok shirts_and_pants
           (json_request (Dict (serialize (sample "Hat" CLOTHS)))) 2).
  exact shirts_and_pants_ok.
Defined.

Lemma create_products_then_get_witness :
  get_products
    (snd (create_products shirts_and_pants
            (json_request (Dict (serialize (sample "Hat" CLOTHS))))))
    4
  = Return (jsonify (Dict (serialize (set_id (Some 4) (sample "Hat" CLOTHS))))
              HTTP_200_OK).
Proof.
  apply (create_products_then_get shirts_and_pants
           (json_request (Dict (serialize (sample "Hat" CLOTHS))))
           (Dict (serialize (sample "Hat" CLOTHS))) (sample "Hat" CLOTHS)
           shirts_and_pants_ok eq_refl eq_refl eq_refl).
Defined.

Lemma get_products_after_delete_witness :
  get_products shirts_and_pants 2
  = Return (jsonify (Dict (serialize (set_id (Some 2) (sample "Pants" CLOTHS))))
              HTTP_200_OK)
  /\ respond (get_products shirts_and_pants 0)
     = error_response HTTP_404_NOT_FOUND "Product with id '0' was not found."
  /\ get_products (snd (delete_products shirts_and_pants 2)) 3
     = get_products shirts_and_pants 3.
Proof.
  split; [|split].
  - apply (proj1 (get_products_after_delete shirts_and_pants 2)). reflexivity.
  - apply (proj1 (proj2 (get_products_after_delete shirts_and_pants 0))).
    reflexivity.
  - apply (proj2 (proj2 (proj2 (get_products_after_delete shirts_and_pants 2)))).
    discriminate.
Defined.

Lemma update_products_not_found_before_body_witness :
  update_products shirts_and_pants (with_header "application/json") 0
  = (abort HTTP_404_NOT_FOUND "Product with id '0' was not found.",
     shirts_and_pants).
Proof.
  apply (update_products_not_found_before_body shirts_and_pants
           (with_header "application/json") 0); reflexivity.
Defined.

Lemma update_products_then_get_witness :
  get_products
    (snd (update_products shirts_and_pants
            (json_request (Dict (serialize (sample "Hat" TOOLS)))) 2))
    2
  = Return (jsonify (Dict (serialize (set_id (Some 2) (sample "Hat" TOOLS))))
              HTTP_200_OK).
Proof.
  apply (update_products_then_get shirts_and_pants
           (json_request (Dict (serialize (sample "Hat" TOOLS)))) 2
           (set_id (Some 2) (sample "Pants" CLOTHS))
           (set_id (Some 2) (sample "Hat" TOOLS))
           (Dict (serialize (sample "Hat" TOOLS)))
           eq_refl eq_refl eq_refl eq_refl).
Defined.

Lemma list_products_selects_witness :
  listing [set_id (Some 1) (sample "Shirt" CLOTHS)]
  = listing (List.filter (selected shirt_in_cloths) (all shirts_and_pants))
  /\ list_products shirts_and_pants (query [])
     = Return (listing (all shirts_and_pants)).
Proof.
  split.
  - apply (proj1 (list_products_selects shirts_and_pants shirt_in_cloths)).
    reflexivity.
  - apply (proj2 (list_products_selects shirts_and_pants (query [])));
      reflexivity.
Defined.

Lemma list_products_category_case_witness :
  list_products shirts_and_pants (with_arg "category" "Cloths" (query []))
  = list_products shirts_and_pants (with_arg "category" "CLOTHS" (query [])).
Proof.
  apply (proj2 (list_products_category_case shirts_and_pants (query [])
                  "Cloths" "CLOTHS" ltac:(discriminate) ltac:(discriminate)
                  eq_refl) CLOTHS).
  reflexivity.
Defined.

Lemma list_products_available_values_witness :
  list_products shirts_and_pants (with_arg "available" "yes" (query []))
  = list_products shirts_and_pants (with_arg "available" "false" (query [])).
Proof.
  apply (list_products_available_values shirts_and_pants (query [])
           "yes" "false"); [discriminate | discriminate | reflexivity].
Defined.

Lemma list_products_price_notation_witness :
  list_products price_list (with_arg "price" "10.00" (query []))
  = list_products price_list (with_arg "price" "1E+1" (query [])).
Proof.
  apply (list_products_price_notation price_list (query []) "10.00" "1E+1"
           (Finite false 1000 (-2)) (Finite false 1 1)
           ltac:(discriminate) ltac:(discriminate)
           eq_refl eq_refl eq_refl eq_refl eq_refl).
  repeat constructor.
Defined.

Lemma list_products_after_delete_witness :
  list_products (snd (delete_products shirts_and_pants 1))
    (query [("name", "Shirt")]%string)
  = Return (listing [set_id (Some 3) (sample "Shirt" FOOD)]).
Proof.
  apply (list_products_after_delete shirts_and_pants
           (query [("name", "Shirt")]%string) 1
           (listing [set_id (Some 1) (sample "Shirt" CLOTHS);
                     set_id (Some 3) (sample "Shirt" FOOD)])).
  reflexivity.
Defined.

Lemma delete_all_products_empties_witness :
  exists st',
    delete_all_products shirts_and_pants = Some st'
    /\ rows st' = []
    /\ next_id st' = 4
    /\ list_products st' (query []) = Return (listing []).
Proof.
  exact (delete_all_products_empties shirts_and_pants shirts_and_pants_ok).
Defined.

Lemma update_products_idempotent_witness :
  update_products
    (snd (update_products shirts_and_pants
            (json_request (Dict (serialize (sample "Hat" TOOLS)))) 2))
    (json_request (Dict (serialize (sample "Hat" TOOLS)))) 2
  = (Return (jsonify (Dict (serialize (set_id (Some 2) (sample "Hat" TOOLS))))
               HTTP_200_OK),
     snd (update_products shirts_and_pants
            (json_request (Dict (serialize (sample "Hat" TOOLS)))) 2)).
Proof.
  apply (update_products_idempotent shirts_and_pants
           (json_request (Dict (serialize (sample "Hat" TOOLS)))) 2).
  reflexivity.
Defined.

Lemma delete_products_undoes_create_witness :
  rows (snd (delete_products
               (snd (create_products shirts_and_pants
                       (json_request (Dict (serialize (sample "Hat" TOOLS))))))
               4))
  = rows shirts_and_pants.
Proof.
  apply (delete_products_undoes_create shirts_and_pants
           (json_request (Dict (serialize (sample "Hat" TOOLS))))
           {| status := HTTP_201_CREATED;
              body := Json (Dict (serialize
                                    (set_id (Some 4) (sample "Hat" TOOLS))));
              location := Some "/products/4"%string |}
           shirts_and_pants_ok).
  reflexivity.
Defined.
